(** * ipcalc: address arithmetic and classification of [ipcalc.c]

    A shallow embedding of the address engine of [ipcalc.c]: prefix and
    netmask conversion, network / broadcast / host-range computation for
    IPv4 and IPv6, and the address-space classifiers.

    Conventions of the embedding.
    - C [int] and [uint32_t] values are integers of [Z]; every operation
      that can leave the 32-bit range has its wrap-around written out
      ([int_wrap] for [int], [to_uint32] for [uint32_t]).
    - [struct in_addr] keeps its single field [s_addr]: the 32-bit value
      the host reads from the four address bytes, which are in network
      byte order.  [htonl]/[ntohl] depend on the byte order of the host,
      a parameter of the development.
    - [struct in6_addr] is its array [s6_addr] of 16 bytes.
    - C strings are values of [string]; a [char *] that may be [NULL] is
      an [option string].
    - The C library calls ([inet_pton], [inet_ntop], [gethostbyaddr]) are
      not part of the program: they are parameters of the section that
      embeds their callers. *)

From Stdlib Require Import ZArith Lia List String Ascii Bool DecimalString.
From Equations Require Import Equations.
From coqutil Require Import Z.bitblast.
From stdpp Require Import base list.
Import ListNotations.

Local Open Scope Z_scope.

(** ** Machine integers *)

(** Reduction of a mathematical integer to the value an [int] holds. *)
Definition int_wrap (z : Z) : Z := (z + 2 ^ 31) mod 2 ^ 32 - 2 ^ 31.

(** Conversion to [uint32_t]. *)
Definition to_uint32 (z : Z) : Z := z mod 2 ^ 32.

(** Conversion to [uint16_t] and to [uint8_t]. *)
Definition to_uint16 (z : Z) : Z := z mod 2 ^ 16.
Definition to_uint8 (z : Z) : Z := z mod 2 ^ 8.

(** [~x] on a [uint32_t]. *)
Definition not32 (x : Z) : Z := to_uint32 (Z.lnot x).

(** ** Byte order *)

Inductive byte_order : Set := LittleEndian | BigEndian.

(** The byte swap behind [htonl] and [ntohl] on a little-endian host. *)
Definition bswap_32 (x : Z) : Z :=
  Z.lor (Z.lor (Z.lor (Z.shiftr (Z.land x 0xff000000) 24)
                      (Z.shiftr (Z.land x 0x00ff0000) 8))
               (Z.shiftl (Z.land x 0x0000ff00) 8))
        (Z.shiftl (Z.land x 0x000000ff) 24).

Record in_addr : Set := mk_in_addr { s_addr : Z }.

Record in6_addr : Set := mk_in6_addr { s6_addr : list Z }.

(** ** [bit_count] *)

(** Number of binary digits of [i]: the number of right shifts that
    bring a positive [i] to zero. *)
Definition bit_length (i : Z) : nat := Z.to_nat (Z.log2_up (i + 1)).

(** The [while (i > 0)] loop of [bit_count], with its locals [c] and
    [seen_one]; the result is what [bit_count] returns. *)
Equations? bit_count_loop (i : Z) (c : Z) (seen_one : bool) : Z
  by wf (bit_length i) lt :=
  bit_count_loop i c seen_one with Z_gt_dec i 0 := {
    | left _ =>
        if negb (Z.land i 1 =? 0) then
          bit_count_loop (Z.shiftr i 1) (c + 1) true
        else if seen_one then -1
        else bit_count_loop (Z.shiftr i 1) c seen_one
    | right _ => if c =? 0 then -1 else c }.
Proof.
  all: unfold bit_length;
    assert (Hup : Z.log2_up (i + 1) = Z.succ (Z.log2 i))
      by (rewrite Z.log2_up_eqn by lia; do 2 f_equal; lia);
    rewrite Hup;
    destruct (Z.eq_dec i 1) as [-> | Hne]; [ vm_compute; lia | ];
    assert (Hs : 0 < Z.shiftr i 1)
      by (rewrite Z.shiftr_div_pow2 by lia; change (2 ^ 1) with 2;
          apply Z.div_str_pos; lia);
    rewrite Z.log2_up_eqn by lia;
    replace (Z.pred (Z.shiftr i 1 + 1)) with (Z.shiftr i 1) by lia;
    rewrite Z.log2_shiftr by lia;
    assert (0 < Z.log2 i) by (apply Z.log2_pos; lia);
    lia.
Qed.

Definition bit_count (i : Z) : Z := bit_count_loop i 0 false.

Section Host.

(** Byte order of the machine the program runs on. *)
Variable host : byte_order.

Definition htonl (x : Z) : Z :=
  match host with LittleEndian => bswap_32 x | BigEndian => x end.

Definition ntohl (x : Z) : Z :=
  match host with LittleEndian => bswap_32 x | BigEndian => x end.

(** [prefix2mask].  The C expression is evaluated in [int]; shifting
    [1] into the sign bit and subtracting from [INT_MIN] wrap around as
    they do on the two's complement targets the program is built for. *)
Definition prefix2mask (prefix : Z) : in_addr :=
  if negb (prefix =? 0) then
    {| s_addr := htonl (to_uint32
         (Z.lnot (int_wrap (int_wrap (Z.shiftl 1 (32 - prefix)) - 1)))) |}
  else
    {| s_addr := htonl 0 |}.

Definition calc_broadcast (addr : in_addr) (prefix : Z) : in_addr :=
  let mask := prefix2mask prefix in
  {| s_addr := Z.lor (Z.land (s_addr addr) (s_addr mask))
                     (not32 (s_addr mask)) |}.

Definition calc_network (addr : in_addr) (prefix : Z) : in_addr :=
  let mask := prefix2mask prefix in
  {| s_addr := Z.land (s_addr addr) (s_addr mask) |}.

(** [default_netmask]: the netmask of the class of the address. *)
Definition default_netmask (addr : in_addr) : in_addr :=
  let saddr := s_addr addr in
  if Z.shiftr (Z.land (ntohl saddr) 0xFF000000) 24 <=? 127 then
    {| s_addr := htonl 0xFF000000 |}
  else if Z.shiftr (Z.land (ntohl saddr) 0xFF000000) 24 <=? 191 then
    {| s_addr := htonl 0xFFFF0000 |}
  else
    {| s_addr := htonl 0xFFFFFF00 |}.

(** [ipv4_net_to_type]: the ordered range tests on the four bytes of the
    network address. *)
Definition ipv4_net_to_type (net : in_addr) : string :=
  let byte1 := Z.land (Z.shiftr (ntohl (s_addr net)) 24) 0xff in
  let byte2 := Z.land (Z.shiftr (ntohl (s_addr net)) 16) 0xff in
  let byte3 := Z.land (Z.shiftr (ntohl (s_addr net)) 8) 0xff in
  let byte4 := Z.land (ntohl (s_addr net)) 0xff in
  if byte1 =? 0 then "This host on this network"
  else if byte1 =? 10 then "Private Use"
  else if (byte1 =? 100) && (Z.land byte2 0xc0 =? 64)
    then "Shared Address Space"
  else if byte1 =? 127 then "Loopback"
  else if (byte1 =? 169) && (byte2 =? 254) then "Link Local"
  else if (byte1 =? 172) && (Z.land byte2 0xf0 =? 16) then "Private Use"
  else if (byte1 =? 192) && (byte2 =? 0) && (byte3 =? 0)
    then "IETF Protocol Assignments"
  else if (byte1 =? 192) && (byte2 =? 2) && (byte3 =? 0)
    then "Documentation (TEST-NET-1)"
  else if (byte1 =? 192) && (byte2 =? 51) && (byte3 =? 100)
    then "Documentation (TEST-NET-2)"
  else if (byte1 =? 203) && (byte2 =? 0) && (byte3 =? 113)
    then "Documentation (TEST-NET-3)"
  else if (byte1 =? 192) && (byte2 =? 88) && (byte3 =? 99)
    then "6 to 4 Relay Anycast (Deprecated)"
  else if (byte1 =? 192) && (byte2 =? 52) && (byte3 =? 193) then "AMT"
  else if (byte1 =? 192) && (byte2 =? 168) then "Private Use"
  else if (byte1 =? 255) && (byte2 =? 255) && (byte3 =? 255)
          && (byte4 =? 255)
    then "Limited Broadcast"
  else if (byte1 =? 192) && (Z.land byte2 0xfe =? 18) then "Private Use"
  else if (224 <=? byte1) && (byte1 <=? 239) then "Multicast"
  else if Z.land byte1 0xf0 =? 240 then "Reserved"
  else "Internet or Reserved for Future use".

End Host.

(** ** C strings *)

(** [strchr s c] for a character [c] other than the terminator: the
    suffix of [s] that starts at the first [c], or [None] for [NULL]. *)
Fixpoint strchr (s : string) (c : ascii) : option string :=
  match s with
  | EmptyString => None
  | String a rest => if Ascii.eqb a c then Some s else strchr rest c
  end.

(** [p++] on a pointer into a string. *)
Definition ptr_inc (s : string) : string :=
  match s with
  | EmptyString => EmptyString
  | String _ rest => rest
  end.

(** First loop of the CIDR shorthand code of [get_ipv4_info]:
    [for (i = 3; i > 0; i--) { tmp = strchr(tmp, '.'); if (!tmp) break;
    else tmp++; }].  The result is the value of [i] on exit. *)
Fixpoint cidr_scan (i : nat) (tmp : string) : nat :=
  match i with
  | O => O
  | S i' =>
      match strchr tmp "."%char with
      | None => i
      | Some t => cidr_scan i' (ptr_inc t)
      end
  end.

(** Second loop: [for (; i > 0; i--) { asprintf(&tmp, "%s.0", ipStr);
    ipStr = tmp; }].  The result is the final [ipStr]. *)
Fixpoint cidr_pad (i : nat) (ipStr : string) : string :=
  match i with
  | O => ipStr
  | S i' => cidr_pad i' (ipStr ++ ".0")%string
  end.

(** [tolower] in the C locale, and the loop of [get_hostname] that
    applies it to every character of the name. *)
Definition tolower (c : ascii) : ascii :=
  let n := nat_of_ascii c in
  if ((65 <=? n) && (n <=? 90))%nat then ascii_of_nat (n + 32) else c.

Fixpoint lower_name (s : string) : string :=
  match s with
  | EmptyString => EmptyString
  | String a rest => String (tolower a) (lower_name rest)
  end.

(** ** The result record *)

Record ip_info_st : Type := mk_ip_info {
  expanded_ip : option string;
  expanded_network : option string;
  network : option string;
  broadcast : option string;
  netmask : option string;
  hostname : option string;
  prefix : Z;
  hostmin : option string;
  hostmax : option string;
  type : option string
}.

(** The record after [memset] has cleared it. *)
Definition info_zero : ip_info_st :=
  {| expanded_ip := None; expanded_network := None; network := None;
     broadcast := None; netmask := None; hostname := None; prefix := 0;
     hostmin := None; hostmax := None; type := None |}.

(** The lines the two info functions write to [stderr], one constructor
    per format string, carrying the formatted arguments. *)
Inductive diagnostic : Type :=
| bad_IPv4_address (ipStr : string)
| bad_IPv4_prefix (prefix : Z)
| bad_IPv6_address (ipStr : string)
| bad_IPv6_prefix (prefix : Z)
| error_converting_IPv6_prefix (prefix : Z)
| error_calculating_IPv6_network
| cannot_find_hostname (ipStr : string).

(** What a call of [get_ipv4_info] or [get_ipv6_info] leaves behind: the
    returned [int], the contents of [*info] and the output on [stderr]. *)
Record outcome : Type := mk_outcome {
  ret : Z;
  info : ip_info_st;
  stderr : list diagnostic
}.

(** [if (!beSilent) fprintf(stderr, ...)]. *)
Definition report (beSilent : bool) (d : diagnostic) : list diagnostic :=
  if beSilent then [] else [d].

(** The argument of [gethostbyaddr]: an address with its family. *)
Inductive sockaddr : Type :=
| AF_INET (a : in_addr)
| AF_INET6 (a : in6_addr).


(** Assignments to the fields of [*info]. *)
Definition set_expanded_ip (v : option string) (i : ip_info_st) : ip_info_st :=
  {| expanded_ip := v; expanded_network := expanded_network i;
     network := network i; broadcast := broadcast i;
     netmask := netmask i; hostname := hostname i; prefix := prefix i;
     hostmin := hostmin i; hostmax := hostmax i; type := type i |}.

Definition set_expanded_network (v : option string) (i : ip_info_st)
    : ip_info_st :=
  {| expanded_ip := expanded_ip i; expanded_network := v;
     network := network i; broadcast := broadcast i;
     netmask := netmask i; hostname := hostname i; prefix := prefix i;
     hostmin := hostmin i; hostmax := hostmax i; type := type i |}.

Definition set_network (v : option string) (i : ip_info_st) : ip_info_st :=
  {| expanded_ip := expanded_ip i;
     expanded_network := expanded_network i; network := v;
     broadcast := broadcast i; netmask := netmask i;
     hostname := hostname i; prefix := prefix i; hostmin := hostmin i;
     hostmax := hostmax i; type := type i |}.

Definition set_broadcast (v : option string) (i : ip_info_st) : ip_info_st :=
  {| expanded_ip := expanded_ip i;
     expanded_network := expanded_network i; network := network i;
     broadcast := v; netmask := netmask i; hostname := hostname i;
     prefix := prefix i; hostmin := hostmin i; hostmax := hostmax i;
     type := type i |}.

Definition set_netmask (v : option string) (i : ip_info_st) : ip_info_st :=
  {| expanded_ip := expanded_ip i;
     expanded_network := expanded_network i; network := network i;
     broadcast := broadcast i; netmask := v; hostname := hostname i;
     prefix := prefix i; hostmin := hostmin i; hostmax := hostmax i;
     type := type i |}.

Definition set_hostname (v : option string) (i : ip_info_st) : ip_info_st :=
  {| expanded_ip := expanded_ip i;
     expanded_network := expanded_network i; network := network i;
     broadcast := broadcast i; netmask := netmask i; hostname := v;
     prefix := prefix i; hostmin := hostmin i; hostmax := hostmax i;
     type := type i |}.

Definition set_prefix (v : Z) (i : ip_info_st) : ip_info_st :=
  {| expanded_ip := expanded_ip i;
     expanded_network := expanded_network i; network := network i;
     broadcast := broadcast i; netmask := netmask i;
     hostname := hostname i; prefix := v; hostmin := hostmin i;
     hostmax := hostmax i; type := type i |}.

Definition set_hostmin (v : option string) (i : ip_info_st) : ip_info_st :=
  {| expanded_ip := expanded_ip i;
     expanded_network := expanded_network i; network := network i;
     broadcast := broadcast i; netmask := netmask i;
     hostname := hostname i; prefix := prefix i; hostmin := v;
     hostmax := hostmax i; type := type i |}.

Definition set_hostmax (v : option string) (i : ip_info_st) : ip_info_st :=
  {| expanded_ip := expanded_ip i;
     expanded_network := expanded_network i; network := network i;
     broadcast := broadcast i; netmask := netmask i;
     hostname := hostname i; prefix := prefix i; hostmin := hostmin i;
     hostmax := v; type := type i |}.

Definition set_type (v : option string) (i : ip_info_st) : ip_info_st :=
  {| expanded_ip := expanded_ip i;
     expanded_network := expanded_network i; network := network i;
     broadcast := broadcast i; netmask := netmask i;
     hostname := hostname i; prefix := prefix i; hostmin := hostmin i;
     hostmax := hostmax i; type := v |}.

(** ** IPv6 helpers that do not call the C library *)

(** [a[i]] on a byte array. *)
Definition at_index (a : list Z) (i : nat) : Z := default 0 (a !! i).

(** The loop of [ipv6_prefix_to_mask]:
    [for (i = prefix, j = 0; i > 0; i -= 8, j++)], writing byte [j] of
    [in6]. *)
Equations? ipv6_mask_loop (i : Z) (j : nat) (in6 : list Z) : list Z
  by wf (Z.to_nat i) lt :=
  ipv6_mask_loop i j in6 with Z_gt_dec i 0 := {
    | left _ =>
        ipv6_mask_loop (i - 8) (S j)
          (if 8 <=? i then <[j := 0xff]> in6
           else <[j := to_uint8 (Z.shiftl 0xff (8 - i))]> in6)
    | right _ => in6 }.
Proof. lia. Qed.

(** [memcmp(a, b, n) == 0]. *)
Definition memcmp_eq (a b : list Z) (n : nat) : bool :=
  bool_decide (take n a = take n b).

(** [ipv6_net_to_type]: the ordered tests on the network address. *)
Definition ipv6_net_to_type (net : in6_addr) : string :=
  let word1 := to_uint16 (Z.lor (Z.shiftl (at_index (s6_addr net) 0) 8)
                                (at_index (s6_addr net) 1)) in
  let word2 := to_uint16 (Z.lor (Z.shiftl (at_index (s6_addr net) 2) 8)
                                (at_index (s6_addr net) 3)) in
  if memcmp_eq (s6_addr net)
       [0; 0; 0; 0; 0; 0; 0; 0; 0; 0; 0; 0; 0; 0; 0; 1] 16
    then "Loopback Address"
  else if memcmp_eq (s6_addr net)
       [0; 0; 0; 0; 0; 0; 0; 0; 0; 0; 0; 0; 0; 0; 0; 0] 16
    then "Unspecified Address"
  else if memcmp_eq (s6_addr net)
       [0; 0; 0; 0; 0; 0; 0; 0; 0; 0; 0xff; 0xff] 12
    then "IPv4-mapped Address"
  else if memcmp_eq (s6_addr net)
       [0; 0x64; 0xff; 0x9b; 0; 0; 0; 0; 0; 0; 0; 0] 12
    then "IPv4-IPv6 Translat."
  else if memcmp_eq (s6_addr net)
       [0x10; 0; 0; 0; 0; 0; 0; 0; 0; 0; 0; 0] 12
    then "Discard-Only Address Block"
  else if (Z.land word1 0xfffe =? 0x2001) && (word2 =? 0)
    then "IETF Protocol Assignments"
  else if Z.land word1 0xe000 =? 0x2000 then "Global Unicast"
  else if Z.land (at_index (s6_addr net) 0) 0xfe =? 0xfc
    then "Unique Local Unicast"
  else if Z.land word1 0xffc0 =? 0xfe80 then "Link-Scoped Unicast"
  else if Z.land (at_index (s6_addr net) 0) 0xff =? 0xff then "Multicast"
  else if Z.land word1 0xfffe =? 0x2002 then "6to4"
  else "Reserved".

(** One lowercase hexadecimal digit, and the two digits [sprintf] writes
    for the format [%.2x]. *)
Definition hex_digit (d : Z) : ascii :=
  if d <? 10 then ascii_of_nat (Z.to_nat (48 + d))
  else ascii_of_nat (Z.to_nat (87 + d)).

Definition hex2 (b : Z) : string :=
  String (hex_digit (b / 16)) (String (hex_digit (b mod 16)) EmptyString).

(** [expand_ipv6]: the loop over the 16 bytes, appending to the buffer. *)
Definition expand_ipv6 (ip6 : in6_addr) : string :=
  foldl (fun buf i =>
           let buf := (buf ++ hex2 (at_index (s6_addr ip6) i))%string in
           if negb (i mod 2 =? 0)%nat && negb (i =? 15)%nat
           then (buf ++ ":")%string else buf)
        EmptyString (seq 0 16).

(** The byte loops of [get_ipv6_info] over [i = 0 .. 15]. *)
Definition network_loop (ip6 mask network : list Z) : list Z :=
  foldl (fun net i => <[i := Z.land (at_index ip6 i) (at_index mask i)]> net)
        network (seq 0 16).

Definition hostmax_loop (mask network : list Z) : list Z :=
  foldl (fun net i =>
           <[i := to_uint8 (Z.lor (at_index net i)
                                  (Z.lnot (at_index mask i)))]> net)
        network (seq 0 16).

(** ** The two info functions *)

Section Info.

Variable host : byte_order.

(** The C library and the resolver.  [inet_pton] returns a positive value
    and fills the address, or fails: [Some] and [None].  [inet_ntop] is
    given a buffer that holds any address of its family and a family it
    supports, so it always returns the text; the branches of the program
    that test it for [NULL] are never taken.  [gethostbyaddr] returns the
    name, or [None] for [NULL]. *)
Variable inet_pton4 : string -> option in_addr.
Variable inet_ntop4 : in_addr -> string.
Variable inet_pton6 : string -> option in6_addr.
Variable inet_ntop6 : in6_addr -> string.
Variable gethostbyaddr : sockaddr -> option string.

Definition get_hostname (addr : sockaddr) : option string :=
  match gethostbyaddr addr with
  | None => None
  | Some h_name => Some (lower_name h_name)
  end.

Definition ipv4_mask_to_int (prefix : string) : Z :=
  match inet_pton4 prefix with
  | None => -1
  | Some in_ => bit_count (ntohl host (s_addr in_))
  end.

Definition get_ipv4_info (ipStr : string) (prefix : Z)
    (beSilent showHostname : bool) : outcome :=
  let info := info_zero in
  (* Handle CIDR entries such as 172/8 *)
  let ipStr := if 0 <=? prefix then cidr_pad (cidr_scan 3 ipStr) ipStr
               else ipStr in
  (* assume single host *)
  let prefix := if 0 <=? prefix then prefix else 32 in
  match inet_pton4 ipStr with
  | None =>
      {| ret := -1; info := info;
         stderr := report beSilent (bad_IPv4_address ipStr) |}
  | Some ip =>
      if 32 <? prefix then
        {| ret := -1; info := info;
           stderr := report beSilent (bad_IPv4_prefix prefix) |}
      else
        let netmask := prefix2mask host prefix in
        let info := set_netmask (Some (inet_ntop4 netmask)) info in
        let info := set_prefix prefix info in
        let broadcast := calc_broadcast host ip prefix in
        let info := set_broadcast (Some (inet_ntop4 broadcast)) info in
        let network := calc_network host ip prefix in
        let info := set_network (Some (inet_ntop4 network)) info in
        let info := set_type (Some (ipv4_net_to_type host network)) info in
        let info :=
          if prefix <? 32 then
            let minhost := network in
            let minhost :=
              if prefix <=? 30 then
                {| s_addr := htonl host
                     (Z.lor (ntohl host (s_addr minhost)) 1) |}
              else minhost in
            let info := set_hostmin (Some (inet_ntop4 minhost)) info in
            let maxhost := network in
            let maxhost :=
              {| s_addr := Z.lor (s_addr maxhost)
                                 (not32 (s_addr netmask)) |} in
            let maxhost :=
              if prefix <=? 30 then
                {| s_addr := htonl host
                     (to_uint32 (ntohl host (s_addr maxhost) - 1)) |}
              else maxhost in
            set_hostmax (Some (inet_ntop4 maxhost)) info
          else
            let '{| network := text |} := info in
            set_hostmax text (set_hostmin text info) in
        if showHostname then
          let info := set_hostname (get_hostname (AF_INET ip)) info in
          match hostname info with
          | None =>
              {| ret := -1; info := info;
                 stderr := report beSilent (cannot_find_hostname ipStr) |}
          | Some _ => {| ret := 0; info := info; stderr := [] |}
          end
        else {| ret := 0; info := info; stderr := [] |}
  end.

(** [ipv6_prefix_to_mask]: [None] for [NULL]; otherwise the returned text
    with the address written to [*mask]. *)
Definition ipv6_prefix_to_mask (prefix : Z) : option (string * in6_addr) :=
  if (prefix =? 0) || (128 <? prefix) then None
  else
    let in6 := {| s6_addr := ipv6_mask_loop (int_wrap prefix) 0
                               (replicate 16 0) |} in
    Some (inet_ntop6 in6, in6).

Definition get_ipv6_info (ipStr : string) (prefix : Z)
    (beSilent showHostname : bool) : outcome :=
  let info := info_zero in
  match inet_pton6 ipStr with
  | None =>
      {| ret := -1; info := info;
         stderr := report beSilent (bad_IPv6_address ipStr) |}
  | Some ip6 =>
      (* expand *)
      let info := set_expanded_ip (Some (expand_ipv6 ip6)) info in
      if (prefix =? 0) || (128 <? prefix) then
        {| ret := -1; info := info;
           stderr := report beSilent (bad_IPv6_prefix prefix) |}
      else
        let prefix := if prefix <? 0 then 128 else prefix in
        let info := set_prefix (to_uint32 prefix) info in
        match ipv6_prefix_to_mask (to_uint32 prefix) with
        | None =>
            {| ret := -1; info := info;
               stderr := report beSilent
                           (error_converting_IPv6_prefix prefix) |}
        | Some (text, mask) =>
            let info := set_netmask (Some text) info in
            let network :=
              {| s6_addr := network_loop (s6_addr ip6) (s6_addr mask)
                              (replicate 16 0) |} in
            let errBuf := inet_ntop6 network in
            let info := set_network (Some errBuf) info in
            let info :=
              set_expanded_network (Some (expand_ipv6 network)) info in
            let info := set_type (Some (ipv6_net_to_type network)) info in
            let info :=
              if prefix <? 128 then
                let info := set_hostmin (Some errBuf) info in
                let network :=
                  {| s6_addr := hostmax_loop (s6_addr mask)
                                  (s6_addr network) |} in
                let errBuf := inet_ntop6 network in
                set_hostmax (Some errBuf) info
              else
                let '{| network := text |} := info in
                set_hostmax text (set_hostmin text info) in
            if showHostname then
              let info := set_hostname (get_hostname (AF_INET6 ip6)) info in
              match hostname info with
              | None =>
                  {| ret := -1; info := info;
                     stderr := report beSilent
                                 (cannot_find_hostname ipStr) |}
              | Some _ => {| ret := 0; info := info; stderr := [] |}
              end
            else {| ret := 0; info := info; stderr := [] |}
        end
  end.

End Info.

(** ** A concrete C library, for running the functions

    An instance of the parameters of the info functions, on a
    little-endian host: the reader and writer of dotted-quad text for
    [AF_INET]; for [AF_INET6] a reader of the uncompressed eight-group
    form (a part of what [inet_pton] reads) and a writer that does not
    shorten the address as [inet_ntop] would; a resolver that knows no
    name.  The theorems do not depend on it: they hold for every
    instance. *)
Module Libc.

Definition host : byte_order := LittleEndian.

(** Value of a decimal digit, if the character is one. *)
Definition digit_value (c : ascii) : option Z :=
  let n := Z.of_nat (nat_of_ascii c) in
  if (48 <=? n) && (n <=? 57) then Some (n - 48) else None.

(** The scanner of dotted-quad text: [tp] holds the octets read so far,
    most recent first. *)
Fixpoint pton4_scan (src : string) (saw_digit : bool) (octets : nat)
    (tp : list Z) : option (list Z) :=
  match src with
  | EmptyString => if (octets <? 4)%nat then None else Some (rev tp)
  | String ch src =>
      match digit_value ch with
      | Some d =>
          let cur := match tp with [] => 0 | t :: _ => t end in
          let new := cur * 10 + d in
          if saw_digit && (cur =? 0) then None
          else if 255 <? new then None
          else if saw_digit then pton4_scan src true octets (new :: tl tp)
          else if (4 <? S octets)%nat then None
          else pton4_scan src true (S octets) (new :: tl tp)
      | None =>
          if Ascii.eqb ch "."%char && saw_digit then
            if (octets =? 4)%nat then None
            else pton4_scan src false octets (0 :: tp)
          else None
      end
  end.

(** The host's reading of four address bytes given in network order. *)
Definition s_addr_of_bytes (b : list Z) : Z :=
  htonl host (fold_left (fun acc x => acc * 256 + x) b 0).

Definition inet_pton4 (src : string) : option in_addr :=
  match pton4_scan src false 0 [0] with
  | Some b => Some {| s_addr := s_addr_of_bytes b |}
  | None => None
  end.

Definition decimal (n : Z) : string :=
  DecimalString.NilZero.string_of_uint (N.to_uint (Z.to_N n)).

Definition inet_ntop4 (a : in_addr) : string :=
  let v := ntohl host (s_addr a) in
  (decimal (v / 2 ^ 24) ++ "." ++ decimal (v / 2 ^ 16 mod 256) ++ "."
   ++ decimal (v / 2 ^ 8 mod 256) ++ "." ++ decimal (v mod 256))%string.

Definition hex_value (c : ascii) : option Z :=
  let n := Z.of_nat (nat_of_ascii c) in
  if (48 <=? n) && (n <=? 57) then Some (n - 48)
  else if (97 <=? n) && (n <=? 102) then Some (n - 87)
  else if (65 <=? n) && (n <=? 70) then Some (n - 55)
  else None.

(** Reader of [x:x:x:x:x:x:x:x], one to four hexadecimal digits a
    group. *)
Fixpoint pton6_scan (src : string) (val : Z) (seen : nat) (tp : list Z)
    : option (list Z) :=
  match src with
  | EmptyString =>
      if (seen =? 0)%nat then None
      else let tp := tp ++ [val / 256; val mod 256] in
           if (length tp =? 16)%nat then Some tp else None
  | String ch src =>
      match hex_value ch with
      | Some d =>
          if (seen =? 4)%nat then None
          else pton6_scan src (val * 16 + d) (S seen) tp
      | None =>
          if Ascii.eqb ch ":"%char && negb (seen =? 0)%nat then
            pton6_scan src 0 0%nat (tp ++ [val / 256; val mod 256])
          else None
      end
  end.

Definition inet_pton6 (src : string) : option in6_addr :=
  match pton6_scan src 0 0%nat [] with
  | Some b => Some {| s6_addr := b |}
  | None => None
  end.

Definition inet_ntop6 (a : in6_addr) : string := expand_ipv6 a.

Definition gethostbyaddr (_ : sockaddr) : option string := None.

Definition ipv4_info : string -> Z -> bool -> bool -> outcome :=
  get_ipv4_info host inet_pton4 inet_ntop4 gethostbyaddr.

Definition ipv6_info : string -> Z -> bool -> bool -> outcome :=
  get_ipv6_info inet_pton6 inet_ntop6 gethostbyaddr.

Definition mask_to_int : string -> Z := ipv4_mask_to_int host inet_pton4.

End Libc.


(** ** Vocabulary of the statements *)

(** A well-formed [struct in6_addr]: 16 bytes. *)
Definition in6_wf (a : in6_addr) : bool :=
  (length (s6_addr a) =? 16)%nat
  && forallb (fun b => (0 <=? b) && (b <? 256)) (s6_addr a).

(** The values a byte holds. *)
Definition byte_range (b : Z) : Prop := 0 <= b < 256.

(** The dotted components of a string: the pieces between its dots. *)
Fixpoint dotted_components (s : string) : list string :=
  match s with
  | EmptyString => [EmptyString]
  | String a rest =>
      if Ascii.eqb a "."%char then EmptyString :: dotted_components rest
      else match dotted_components rest with
           | [] => [String a EmptyString]
           | c :: cs => String a c :: cs
           end
  end.

(** [n] components [.0]. *)
Fixpoint zero_components (n : nat) : string :=
  match n with
  | O => EmptyString
  | S n' => (".0" ++ zero_components n')%string
  end.

(** The netmask of a prefix as a number: the top [prefix] of 32 bits. *)
Definition mask_of_prefix (prefix : Z) : Z := 2 ^ 32 - 2 ^ (32 - prefix).

(** Byte [j] of the IPv6 netmask of a prefix: the top [prefix] of 128
    bits, eight to a byte. *)
Definition mask6_byte (prefix : Z) (j : nat) : Z :=
  let k := Z.max 0 (Z.min 8 (prefix - 8 * Z.of_nat j)) in
  2 ^ 8 - 2 ^ (8 - k).

(** The number a sequence of bytes spells, most significant byte
    first. *)
Definition be_value (bytes : list Z) : Z :=
  fold_left (fun acc b => acc * 256 + b) bytes 0.


(** The characters of a string. *)
Fixpoint chars (s : string) : list ascii :=
  match s with
  | EmptyString => []
  | String a rest => a :: chars rest
  end.

(** The number [b1.b2.b3.b4] spells, and the address as the host holds
    it. *)
Definition quad (b1 b2 b3 b4 : Z) : Z :=
  ((b1 * 256 + b2) * 256 + b3) * 256 + b4.

Definition dotted (host : byte_order) (b1 b2 b3 b4 : Z) : in_addr :=
  {| s_addr := htonl host (quad b1 b2 b3 b4) |}.

(** A digit or a letter from a to f. *)
Definition is_lower_hex (c : ascii) : bool :=
  let n := nat_of_ascii c in
  (((48 <=? n) && (n <=? 57)) || ((97 <=? n) && (n <=? 102)))%nat.

(** The hostname lookup does not fail: it is not asked for, or the
    resolver knows the address. *)
Definition lookup_succeeds (gethostbyaddr : sockaddr -> option string)
    (showHostname : bool) (addr : sockaddr) : Prop :=
  showHostname = true -> gethostbyaddr addr <> None.

(** * Properties *)

(** ** Byte swapping and bitwise operations *)

Lemma bswap_32_spec (x n : Z) :
  0 <= n ->
  Z.testbit (bswap_32 x) n =
    if n <? 8 then Z.testbit x (n + 24)
    else if n <? 16 then Z.testbit x (n + 8)
    else if n <? 24 then Z.testbit x (n - 8)
    else if n <? 32 then Z.testbit x (n - 24)
    else false.
Proof.
  intros Hn. unfold bswap_32.
  change 0xff000000 with (Z.shiftl (Z.ones 8) 24).
  change 0x00ff0000 with (Z.shiftl (Z.ones 8) 16).
  change 0x0000ff00 with (Z.shiftl (Z.ones 8) 8).
  change 0x000000ff with (Z.ones 8).
  Z.bitblast_core.
Qed.

Lemma testbit_high (x n : Z) :
  0 <= x < 2 ^ 32 -> 32 <= n -> Z.testbit x n = false.
Proof.
  intros Hx Hn. rewrite <- (Z.mod_small x (2 ^ 32)) by lia.
  apply Z.mod_pow2_bits_high. lia.
Qed.

Lemma range_of_bits (x : Z) :
  (forall n, 0 <= n -> 32 <= n -> Z.testbit x n = false) -> 0 <= x < 2 ^ 32.
Proof.
  intros H.
  assert (E : x = x mod 2 ^ 32).
  { apply Z.bits_inj'. intros n Hn.
    destruct (Z.ltb_spec n 32).
    - rewrite Z.mod_pow2_bits_low by lia. reflexivity.
    - rewrite Z.mod_pow2_bits_high by lia. apply H; lia. }
  rewrite E. apply Z.mod_pos_bound. lia.
Qed.

Lemma bswap_32_range (x : Z) : 0 <= bswap_32 x < 2 ^ 32.
Proof.
  apply range_of_bits. intros n Hn Hhi.
  rewrite bswap_32_spec by lia. Z.destruct_ltbs; lia || reflexivity.
Qed.

Lemma bswap_32_involutive (x : Z) :
  0 <= x < 2 ^ 32 -> bswap_32 (bswap_32 x) = x.
Proof.
  intros Hx. apply Z.bits_inj'. intros n Hn.
  rewrite bswap_32_spec by lia.
  Z.destruct_ltbs; rewrite ?bswap_32_spec by lia; Z.destruct_ltbs;
    try lia; try (f_equal; lia).
  symmetry. apply testbit_high; lia.
Qed.

Lemma bswap_32_land (x y : Z) :
  bswap_32 (Z.land x y) = Z.land (bswap_32 x) (bswap_32 y).
Proof.
  apply Z.bits_inj'. intros n Hn.
  rewrite Z.land_spec, !bswap_32_spec by lia.
  Z.destruct_ltbs; rewrite ?Z.land_spec; reflexivity.
Qed.

Lemma bswap_32_lor (x y : Z) :
  bswap_32 (Z.lor x y) = Z.lor (bswap_32 x) (bswap_32 y).
Proof.
  apply Z.bits_inj'. intros n Hn.
  rewrite Z.lor_spec, !bswap_32_spec by lia.
  Z.destruct_ltbs; rewrite ?Z.lor_spec; reflexivity.
Qed.

Lemma not32_spec (x n : Z) :
  0 <= n -> Z.testbit (not32 x) n = (n <? 32) && negb (Z.testbit x n).
Proof.
  intros Hn. unfold not32, to_uint32.
  destruct (Z.ltb_spec n 32).
  - rewrite Z.mod_pow2_bits_low, Z.lnot_spec by lia. reflexivity.
  - rewrite Z.mod_pow2_bits_high by lia. reflexivity.
Qed.

Lemma bswap_32_not32 (x : Z) : bswap_32 (not32 x) = not32 (bswap_32 x).
Proof.
  apply Z.bits_inj'. intros n Hn.
  rewrite not32_spec, !bswap_32_spec by lia.
  Z.destruct_ltbs; rewrite ?not32_spec by lia; Z.destruct_ltbs;
    try lia; reflexivity.
Qed.

Lemma not32_range (x : Z) : 0 <= not32 x < 2 ^ 32.
Proof. unfold not32, to_uint32. apply Z.mod_pos_bound. lia. Qed.

Lemma not32_value (x : Z) : 0 <= x < 2 ^ 32 -> not32 x = 2 ^ 32 - 1 - x.
Proof.
  intros Hx. unfold not32, to_uint32, Z.lnot.
  replace (Z.pred (- x)) with (2 ^ 32 - 1 - x + (-1) * 2 ^ 32) by lia.
  rewrite Z.mod_add by lia. apply Z.mod_small. lia.
Qed.

Section HostFacts.
Variable host : byte_order.

Lemma ntohl_range (x : Z) : 0 <= x < 2 ^ 32 -> 0 <= ntohl host x < 2 ^ 32.
Proof. unfold ntohl. destruct host; auto using bswap_32_range. Qed.

Lemma htonl_range (x : Z) : 0 <= x < 2 ^ 32 -> 0 <= htonl host x < 2 ^ 32.
Proof. unfold htonl. destruct host; auto using bswap_32_range. Qed.

Lemma ntohl_htonl (x : Z) : 0 <= x < 2 ^ 32 -> ntohl host (htonl host x) = x.
Proof.
  unfold ntohl, htonl. destruct host; auto using bswap_32_involutive.
Qed.

Lemma htonl_ntohl (x : Z) : 0 <= x < 2 ^ 32 -> htonl host (ntohl host x) = x.
Proof.
  unfold ntohl, htonl. destruct host; auto using bswap_32_involutive.
Qed.

Lemma ntohl_land (x y : Z) :
  ntohl host (Z.land x y) = Z.land (ntohl host x) (ntohl host y).
Proof. unfold ntohl. destruct host; auto using bswap_32_land. Qed.

Lemma ntohl_lor (x y : Z) :
  ntohl host (Z.lor x y) = Z.lor (ntohl host x) (ntohl host y).
Proof. unfold ntohl. destruct host; auto using bswap_32_lor. Qed.

Lemma ntohl_not32 (x : Z) : ntohl host (not32 x) = not32 (ntohl host x).
Proof. unfold ntohl. destruct host; auto using bswap_32_not32. Qed.

Lemma int_wrap_small (z : Z) : - 2 ^ 31 <= z < 2 ^ 31 -> int_wrap z = z.
Proof. intros Hz. unfold int_wrap. rewrite Z.mod_small by lia. lia. Qed.

Lemma mask_expression (prefix : Z) :
  1 <= prefix <= 32 ->
  to_uint32 (Z.lnot (int_wrap (int_wrap (Z.shiftl 1 (32 - prefix)) - 1)))
  = mask_of_prefix prefix.
Proof.
  intros Hp. unfold mask_of_prefix.
  rewrite Z.shiftl_1_l.
  destruct (Z.eq_dec prefix 1) as [-> | Hne]; [ reflexivity | ].
  assert (H30 : 1 <= 2 ^ (32 - prefix) <= 2 ^ 30).
  { split; [ pose proof (Z.pow_pos_nonneg 2 (32 - prefix)); lia
            | apply Z.pow_le_mono_r; lia ]. }
  rewrite (int_wrap_small (2 ^ (32 - prefix))) by lia.
  rewrite int_wrap_small by lia.
  unfold to_uint32, Z.lnot.
  replace (Z.pred (- (2 ^ (32 - prefix) - 1)))
    with (2 ^ 32 - 2 ^ (32 - prefix) + (-1) * 2 ^ 32) by lia.
  rewrite Z.mod_add by lia. apply Z.mod_small. lia.
Qed.

Lemma mask_of_prefix_range (prefix : Z) :
  0 <= prefix <= 32 -> 0 <= mask_of_prefix prefix < 2 ^ 32.
Proof.
  intros Hp. unfold mask_of_prefix.
  assert (1 <= 2 ^ (32 - prefix) <= 2 ^ 32).
  { split; [ pose proof (Z.pow_pos_nonneg 2 (32 - prefix)); lia
            | apply Z.pow_le_mono_r; lia ]. }
  lia.
Qed.

(** The netmask [prefix2mask] builds, read in host order. *)
Lemma prefix2mask_value (prefix : Z) :
  0 <= prefix <= 32 ->
  s_addr (prefix2mask host prefix) = htonl host (mask_of_prefix prefix).
Proof.
  intros Hp. unfold prefix2mask.
  destruct (Z.eqb_spec prefix 0) as [-> | Hne]; simpl.
  - reflexivity.
  - rewrite mask_expression by lia. reflexivity.
Qed.

Lemma prefix2mask_host_order (prefix : Z) :
  0 <= prefix <= 32 ->
  ntohl host (s_addr (prefix2mask host prefix)) = mask_of_prefix prefix.
Proof.
  intros Hp. rewrite prefix2mask_value by lia.
  apply ntohl_htonl, mask_of_prefix_range; lia.
Qed.

End HostFacts.

Lemma bit_count_loop_eq (i c : Z) (seen_one : bool) :
  bit_count_loop i c seen_one =
    if 0 <? i then
      if negb (Z.land i 1 =? 0) then
        bit_count_loop (Z.shiftr i 1) (c + 1) true
      else if seen_one then -1
      else bit_count_loop (Z.shiftr i 1) c seen_one
    else if c =? 0 then -1 else c.
Proof.
  rewrite bit_count_loop_equation_1. unfold bit_count_loop_unfold_clause_1.
  destruct (Z_gt_dec i 0); destruct (Z.ltb_spec 0 i); try lia; reflexivity.
Qed.

Lemma land_1_odd (k : Z) : Z.land (2 * k + 1) 1 = 1.
Proof.
  change 1 with (Z.ones 1) at 2. rewrite Z.land_ones by lia.
  change (2 ^ 1) with 2. rewrite Z.mul_comm, Z.add_comm, Z.mod_add by lia.
  reflexivity.
Qed.

Lemma land_1_even (k : Z) : Z.land (2 * k) 1 = 0.
Proof.
  change 1 with (Z.ones 1). rewrite Z.land_ones by lia.
  change (2 ^ 1) with 2. rewrite Z.mul_comm. apply Z.mod_mul. lia.
Qed.

Lemma shiftr_1_odd (k : Z) : Z.shiftr (2 * k + 1) 1 = k.
Proof.
  rewrite Z.shiftr_div_pow2 by lia. change (2 ^ 1) with 2.
  rewrite Z.mul_comm, Z.add_comm, Z.div_add by lia. reflexivity.
Qed.

Lemma shiftr_1_even (k : Z) : Z.shiftr (2 * k) 1 = k.
Proof.
  rewrite Z.shiftr_div_pow2 by lia. change (2 ^ 1) with 2.
  rewrite Z.mul_comm. apply Z.div_mul. lia.
Qed.

(** A run of [n] one bits: the loop adds [n] to the count. *)
Lemma bit_count_loop_ones (n : nat) (c : Z) (seen_one : bool) :
  bit_count_loop (2 ^ Z.of_nat n - 1) c seen_one =
    if c + Z.of_nat n =? 0 then -1 else c + Z.of_nat n.
Proof.
  revert c seen_one. induction n as [| n IH]; intros c seen_one.
  - rewrite bit_count_loop_eq. simpl. rewrite Z.add_0_r. reflexivity.
  - rewrite bit_count_loop_eq.
    replace (2 ^ Z.of_nat (S n) - 1) with (2 * (2 ^ Z.of_nat n - 1) + 1)
      by (rewrite Nat2Z.inj_succ, Z.pow_succ_r by lia; lia).
    assert (0 < 2 ^ Z.of_nat n) by (apply Z.pow_pos_nonneg; lia).
    destruct (Z.ltb_spec 0 (2 * (2 ^ Z.of_nat n - 1) + 1)); [ | lia ].
    rewrite land_1_odd, shiftr_1_odd. simpl.
    rewrite IH. replace (c + 1 + Z.of_nat n) with (c + Z.of_nat (S n)) by lia.
    reflexivity.
Qed.

(** Zero bits below the first one bit are skipped. *)
Lemma bit_count_loop_zeros (t : nat) (m c : Z) :
  0 < m ->
  bit_count_loop (2 ^ Z.of_nat t * m) c false = bit_count_loop m c false.
Proof.
  intros Hm. induction t as [| t IH].
  - f_equal. simpl. lia.
  - rewrite bit_count_loop_eq.
    replace (2 ^ Z.of_nat (S t) * m) with (2 * (2 ^ Z.of_nat t * m))
      by (rewrite Nat2Z.inj_succ, Z.pow_succ_r by lia; lia).
    assert (0 < 2 ^ Z.of_nat t) by (apply Z.pow_pos_nonneg; lia).
    destruct (Z.ltb_spec 0 (2 * (2 ^ Z.of_nat t * m))); [ | nia ].
    rewrite land_1_even, shiftr_1_even. simpl. exact IH.
Qed.

(** [bit_count] accepts every single run of one bits, wherever it lies,
    and returns its length. *)
Lemma bit_count_run (t n : Z) :
  0 <= t -> 1 <= n -> bit_count (2 ^ t * (2 ^ n - 1)) = n.
Proof.
  intros Ht Hn. unfold bit_count.
  rewrite <- (Z2Nat.id t), <- (Z2Nat.id n) by lia.
  assert (1 < 2 ^ Z.of_nat (Z.to_nat n)).
  { apply Z.pow_gt_1; lia. }
  rewrite bit_count_loop_zeros by lia.
  rewrite bit_count_loop_ones, Z.add_0_l.
  destruct (Z.eqb_spec (Z.of_nat (Z.to_nat n)) 0); [ lia | reflexivity ].
Qed.

Lemma mask_of_prefix_run (prefix : Z) :
  0 <= prefix <= 32 ->
  mask_of_prefix prefix = 2 ^ (32 - prefix) * (2 ^ prefix - 1).
Proof.
  intros Hp. unfold mask_of_prefix.
  rewrite Z.mul_sub_distr_l, <- Z.pow_add_r by lia.
  replace (32 - prefix + prefix) with 32 by lia. lia.
Qed.

Lemma bit_count_mask (prefix : Z) :
  0 <= prefix <= 32 ->
  bit_count (mask_of_prefix prefix) = if prefix =? 0 then -1 else prefix.
Proof.
  intros Hp. destruct (Z.eqb_spec prefix 0) as [-> | Hne].
  - reflexivity.
  - rewrite mask_of_prefix_run by lia. apply bit_count_run; lia.
Qed.

Lemma half_decompose (i : Z) : i = 2 * Z.shiftr i 1 + Z.land i 1.
Proof.
  rewrite Z.shiftr_div_pow2 by lia.
  replace (Z.land i 1) with (i mod 2 ^ 1)
    by (rewrite <- Z.land_ones by lia; reflexivity).
  change (2 ^ 1) with 2. apply Z.div_mod. lia.
Qed.

Lemma land_1_cases (i : Z) : Z.land i 1 = 0 \/ Z.land i 1 = 1.
Proof.
  replace (Z.land i 1) with (i mod 2 ^ 1)
    by (rewrite <- Z.land_ones by lia; reflexivity).
  change (2 ^ 1) with 2. pose proof (Z.mod_pos_bound i 2). lia.
Qed.

(** What the loop has seen when it does not fail. *)
Lemma bit_count_loop_accepts (i c : Z) (seen_one : bool) :
  0 <= i -> 0 <= c ->
  bit_count_loop i c seen_one <> -1 ->
  if seen_one then exists n, 0 <= n /\ i = 2 ^ n - 1
  else i = 0 \/ exists t n, 0 <= t /\ 1 <= n /\ i = 2 ^ t * (2 ^ n - 1).
Proof.
  funelim (bit_count_loop i c seen_one); intros Hi Hc Hres.
  - pose proof (half_decompose i) as Hd.
    assert (Hk : 0 <= Z.shiftr i 1) by (apply Z.shiftr_nonneg; lia).
    destruct (land_1_cases i) as [E | E]; rewrite E in *; simpl in Hres.
    + destruct seen_one; [ contradiction | ].
      destruct (H0 Hk Hc Hres) as [Hz | (t & n & Ht & Hn & Hrun)]; [ lia | ].
      right. exists (t + 1), n. repeat split; try lia.
      rewrite Z.pow_add_r by lia. change (2 ^ 1) with 2. lia.
    + destruct (H Hk ltac:(lia) Hres) as (n & Hn & Hrun).
      assert (Ei : i = 2 ^ (n + 1) - 1).
      { rewrite Z.pow_add_r by lia. change (2 ^ 1) with 2. lia. }
      destruct seen_one.
      * exists (n + 1). split; [ lia | exact Ei ].
      * right. exists 0, (n + 1). repeat split; try lia.
  - assert (i = 0) by lia. subst i. destruct seen_one.
    + exists 0. split; [ lia | reflexivity ].
    + left. reflexivity.
Qed.


Lemma land_not32_disjoint (a m : Z) : Z.land (Z.land a m) (not32 m) = 0.
Proof.
  apply Z.bits_inj'. intros n Hn.
  rewrite !Z.land_spec, not32_spec, Z.bits_0 by lia.
  destruct (Z.testbit m n); rewrite ?andb_false_r; reflexivity.
Qed.

Lemma lor_not32_sum (a m : Z) :
  Z.lor (Z.land a m) (not32 m) = Z.land a m + not32 m.
Proof. apply Z.or_to_plus, land_not32_disjoint. Qed.

Lemma land_range (a m : Z) : 0 <= m < 2 ^ 32 -> 0 <= Z.land a m < 2 ^ 32.
Proof.
  intros Hm. apply range_of_bits. intros n Hn Hhi.
  rewrite Z.land_spec, (testbit_high m) by lia. apply andb_false_r.
Qed.

Lemma lor_range (a b : Z) :
  0 <= a < 2 ^ 32 -> 0 <= b < 2 ^ 32 -> 0 <= Z.lor a b < 2 ^ 32.
Proof.
  intros Ha Hb. apply range_of_bits. intros n Hn Hhi.
  rewrite Z.lor_spec, (testbit_high a), (testbit_high b) by lia.
  reflexivity.
Qed.

Lemma land_mask_even (a p : Z) :
  0 <= p <= 31 -> Z.land (Z.land a (mask_of_prefix p)) 1 = 0.
Proof.
  intros Hp. rewrite <- Z.land_assoc.
  replace (Z.land (mask_of_prefix p) 1) with 0; [ apply Z.land_0_r | ].
  rewrite mask_of_prefix_run by lia.
  replace (2 ^ (32 - p)) with (2 * 2 ^ (31 - p))
    by (rewrite <- Z.pow_succ_r by lia; f_equal; lia).
  rewrite <- Z.mul_assoc. symmetry. apply land_1_even.
Qed.

Section Ipv4Facts.
Variable host : byte_order.

(** Network and broadcast address in host order. *)
Lemma calc_network_host_order (ip : in_addr) (p : Z) :
  0 <= p <= 32 ->
  ntohl host (s_addr (calc_network host ip p))
  = Z.land (ntohl host (s_addr ip)) (mask_of_prefix p).
Proof.
  intros Hp. unfold calc_network. simpl.
  rewrite ntohl_land, prefix2mask_host_order by lia. reflexivity.
Qed.

Lemma calc_broadcast_host_order (ip : in_addr) (p : Z) :
  0 <= p <= 32 ->
  ntohl host (s_addr (calc_broadcast host ip p))
  = ntohl host (s_addr (calc_network host ip p)) + 2 ^ (32 - p) - 1.
Proof.
  intros Hp. rewrite calc_network_host_order by lia.
  unfold calc_broadcast. simpl.
  rewrite ntohl_lor, ntohl_land, ntohl_not32, prefix2mask_host_order by lia.
  rewrite lor_not32_sum, not32_value by (apply mask_of_prefix_range; lia).
  unfold mask_of_prefix. lia.
Qed.

Lemma calc_network_range (ip : in_addr) (p : Z) :
  0 <= p <= 32 ->
  0 <= ntohl host (s_addr (calc_network host ip p)) <= mask_of_prefix p.
Proof.
  intros Hp. rewrite calc_network_host_order by lia.
  pose proof (mask_of_prefix_range p Hp).
  pose proof (land_range (ntohl host (s_addr ip)) (mask_of_prefix p)).
  split; [ lia | ].
  pose proof (lor_not32_sum (ntohl host (s_addr ip)) (mask_of_prefix p)) as E.
  pose proof (lor_range (Z.land (ntohl host (s_addr ip)) (mask_of_prefix p))
                (not32 (mask_of_prefix p))) as R.
  pose proof (not32_range (mask_of_prefix p)).
  rewrite E, not32_value in R by lia. lia.
Qed.

End Ipv4Facts.

(** ** Strings and the CIDR shorthand *)

Lemma dotted_components_nonempty (s : string) : dotted_components s <> [].
Proof.
  destruct s as [| a s]; simpl; [ discriminate | ].
  destruct (Ascii.eqb a "."); [ discriminate | ].
  destruct (dotted_components s); discriminate.
Qed.

Lemma dotted_components_cons (a : ascii) (s : string) :
  length (dotted_components (String a s)) =
    if Ascii.eqb a "." then S (length (dotted_components s))
    else length (dotted_components s).
Proof.
  simpl. destruct (Ascii.eqb a "."); [ reflexivity | ].
  pose proof (dotted_components_nonempty s).
  destruct (dotted_components s); [ contradiction | reflexivity ].
Qed.

(** What [strchr] finds, counted in components. *)
Lemma strchr_dot_components (s : string) :
  match strchr s "." with
  | None => length (dotted_components s) = 1%nat
  | Some t =>
      length (dotted_components s) = S (length (dotted_components (ptr_inc t)))
  end.
Proof.
  induction s as [| a s IH].
  - reflexivity.
  - cbn [strchr]. rewrite dotted_components_cons.
    destruct (Ascii.eqb a "."); [ reflexivity | exact IH ].
Qed.

Lemma cidr_scan_components (i : nat) (s : string) :
  cidr_scan i s = (i - (length (dotted_components s) - 1))%nat.
Proof.
  revert s. induction i as [| i IH]; intros s; [ reflexivity | ].
  cbn [cidr_scan]. pose proof (strchr_dot_components s) as H.
  destruct (strchr s ".") as [t |].
  - rewrite IH, H. pose proof (dotted_components_nonempty (ptr_inc t)).
    destruct (dotted_components (ptr_inc t)); [ contradiction | simpl; lia ].
  - rewrite H. lia.
Qed.

Lemma append_assoc (a b c : string) :
  ((a ++ b) ++ c = a ++ (b ++ c))%string.
Proof. induction a as [| x a IH]; simpl; [ | rewrite IH ]; reflexivity. Qed.

Lemma cidr_pad_append (i : nat) (s : string) :
  cidr_pad i s = (s ++ zero_components i)%string.
Proof.
  revert s. induction i as [| i IH]; intros s; cbn [cidr_pad zero_components].
  - induction s as [| x s IHs]; simpl; [ | rewrite <- IHs ]; reflexivity.
  - rewrite IH. apply append_assoc.
Qed.

Lemma components_append_zero (s : string) (k : nat) :
  length (dotted_components (s ++ zero_components k)) =
    (length (dotted_components s) + k)%nat.
Proof.
  induction s as [| a s IH].
  - change (""%string ++ zero_components k)%string with (zero_components k).
    induction k as [| k IHk]; [ reflexivity | ].
    cbn [zero_components].
    change (".0" ++ zero_components k)%string
      with (String "." (String "0" (zero_components k))).
    rewrite !dotted_components_cons. cbn [Ascii.eqb Bool.eqb].
    simpl in *. lia.
  - change (String a s ++ zero_components k)%string
      with (String a (s ++ zero_components k)).
    rewrite !dotted_components_cons.
    destruct (Ascii.eqb a "."); lia.
Qed.

Lemma ipv6_mask_loop_length (i : Z) (j : nat) (in6 : list Z) :
  length (ipv6_mask_loop i j in6) = length in6.
Proof.
  funelim (ipv6_mask_loop i j in6).
  - rewrite H. destruct (8 <=? i); apply length_insert.
  - reflexivity.
Qed.

Lemma ipv6_mask_loop_bytes (i : Z) (j : nat) (in6 : list Z) :
  Forall byte_range in6 -> Forall byte_range (ipv6_mask_loop i j in6).
Proof.
  funelim (ipv6_mask_loop i j in6); intros Hin; [ | exact Hin ].
  apply H. destruct (8 <=? i); apply Forall_insert; try exact Hin.
  - unfold byte_range; lia.
  - unfold byte_range, to_uint8. apply Z.mod_pos_bound. lia.
Qed.

Ltac explode_list l :=
  do 17 (destruct l as [| ? l]; try discriminate).

Lemma network_loop_zip (a m : list Z) :
  length a = 16%nat -> length m = 16%nat ->
  network_loop a m (replicate 16 0) = zip_with Z.land a m.
Proof. intros Ha Hm. explode_list a. explode_list m. reflexivity. Qed.

Lemma hostmax_loop_zip (m n : list Z) :
  length m = 16%nat -> length n = 16%nat ->
  hostmax_loop m n
  = zip_with (fun x y => to_uint8 (Z.lor x (Z.lnot y))) n m.
Proof. intros Hm Hn. explode_list m. explode_list n. reflexivity. Qed.

Lemma byte_high_bits (b n : Z) :
  byte_range b -> 8 <= n -> Z.testbit b n = false.
Proof.
  intros Hb Hn.
  rewrite <- (Z.mod_small b (2 ^ 8)) by (unfold byte_range in Hb; lia).
  apply Z.mod_pow2_bits_high. lia.
Qed.

Lemma land_byte_range (a m : Z) : byte_range m -> byte_range (Z.land a m).
Proof.
  intros Hm. unfold byte_range.
  assert (E : Z.land a m = Z.land a m mod 2 ^ 8).
  { apply Z.bits_inj'. intros n Hn. destruct (Z.ltb_spec n 8).
    - rewrite Z.mod_pow2_bits_low by lia. reflexivity.
    - rewrite Z.mod_pow2_bits_high, Z.land_spec, (byte_high_bits m)
        by (auto; lia).
      apply andb_false_r. }
  rewrite E. apply Z.mod_pos_bound. lia.
Qed.

(** [x | ~y] stored in a byte is [x] OR the inverted byte [255 - y]. *)
Lemma or_inverted_byte (x y : Z) :
  byte_range x -> byte_range y ->
  to_uint8 (Z.lor x (Z.lnot y)) = Z.lor x (255 - y).
Proof.
  intros Hx Hy. unfold to_uint8.
  assert (E : 255 - y = Z.lnot y mod 2 ^ 8).
  { unfold Z.lnot. replace (Z.pred (- y)) with (255 - y + (-1) * 2 ^ 8) by lia.
    rewrite Z.mod_add by lia. symmetry. apply Z.mod_small.
    unfold byte_range in Hy. lia. }
  rewrite E. apply Z.bits_inj'. intros n Hn. destruct (Z.ltb_spec n 8).
  - rewrite Z.mod_pow2_bits_low, !Z.lor_spec, Z.mod_pow2_bits_low by lia.
    reflexivity.
  - rewrite Z.mod_pow2_bits_high, Z.lor_spec, Z.mod_pow2_bits_high,
      (byte_high_bits x) by (auto; lia).
    reflexivity.
Qed.

Lemma zip_land_bytes (a m : list Z) :
  Forall byte_range m -> Forall byte_range (zip_with Z.land a m).
Proof.
  intros Hm. revert a. induction Hm as [| y m Hy Hm IH]; intros [| x a];
    simpl; constructor; auto using land_byte_range.
Qed.

Lemma zip_or_inverted (n m : list Z) :
  Forall byte_range n -> Forall byte_range m ->
  zip_with (fun x y => to_uint8 (Z.lor x (Z.lnot y))) n m
  = zip_with (fun x y => Z.lor x (255 - y)) n m.
Proof.
  intros Hn. revert m. induction Hn as [| x n Hx Hn IH]; intros m Hm.
  - reflexivity.
  - destruct Hm as [| y m Hy Hm]; [ reflexivity | ].
    simpl. rewrite or_inverted_byte, IH by assumption. reflexivity.
Qed.

Lemma zip_land_ones (a : list Z) :
  Forall byte_range a -> zip_with Z.land a (replicate (length a) 255) = a.
Proof.
  induction 1 as [| x a Hx Ha IH]; [ reflexivity | ].
  simpl. rewrite IH. f_equal.
  change 255 with (Z.ones 8). rewrite Z.land_ones by lia.
  apply Z.mod_small. exact Hx.
Qed.

Lemma in6_wf_spec (a : in6_addr) :
  in6_wf a = true ->
  length (s6_addr a) = 16%nat /\ Forall byte_range (s6_addr a).
Proof.
  unfold in6_wf. intros H. apply andb_true_iff in H as [Hl Hb].
  split; [ apply Nat.eqb_eq, Hl | ].
  apply Forall_forall. intros b Hin.
  rewrite forallb_forall in Hb. apply list_elem_of_In in Hin.
  specialize (Hb b Hin). unfold byte_range. lia.
Qed.

Section InfoFacts.
Variable host : byte_order.
Variable inet_pton4 : string -> option in_addr.
Variable inet_ntop4 : in_addr -> string.
Variable inet_pton6 : string -> option in6_addr.
Variable inet_ntop6 : in6_addr -> string.
Variable gethostbyaddr : sockaddr -> option string.

Local Abbreviation ipv4_info :=
  (get_ipv4_info host inet_pton4 inet_ntop4 gethostbyaddr).
Local Abbreviation ipv6_info :=
  (get_ipv6_info inet_pton6 inet_ntop6 gethostbyaddr).

(** The outcome of [get_ipv4_info] once the address is read and the
    prefix is in range; [q] is the prefix after the default is applied. *)
Lemma get_ipv4_info_outcome (ipStr : string) (p : Z) (bs sh : bool)
    (ip : in_addr) :
  p <= 32 ->
  inet_pton4 (if 0 <=? p then cidr_pad (cidr_scan 3 ipStr) ipStr else ipStr)
  = Some ip ->
  let q := if 0 <=? p then p else 32 in
  let o := ipv4_info ipStr p bs sh in
  let mask := prefix2mask host q in
  let net := calc_network host ip q in
  let bc := calc_broadcast host ip q in
  netmask (info o) = Some (inet_ntop4 mask)
  /\ prefix (info o) = q
  /\ network (info o) = Some (inet_ntop4 net)
  /\ broadcast (info o) = Some (inet_ntop4 bc)
  /\ type (info o) = Some (ipv4_net_to_type host net)
  /\ hostmin (info o) =
       Some (inet_ntop4
               (if q <=? 30
                then {| s_addr :=
                          htonl host (Z.lor (ntohl host (s_addr net)) 1) |}
                else net))
  /\ hostmax (info o) =
       Some (inet_ntop4
               (if q <=? 30
                then {| s_addr :=
                          htonl host
                            (to_uint32 (ntohl host (s_addr bc) - 1)) |}
                else if q <? 32 then bc else net))
  /\ ret o = (if sh then match gethostbyaddr (AF_INET ip) with
                         | None => -1 | Some _ => 0 end
              else 0)
  /\ (ret o = 0 -> stderr o = []).
Proof.
  intros Hp Hip q o. subst q o. unfold get_ipv4_info.
  destruct (Z.leb_spec 0 p); rewrite Hip.
  - destruct (Z.ltb_spec 32 p); [ lia | ].
    destruct (Z.ltb_spec p 32), (Z.leb_spec p 30); try lia;
      destruct sh; simpl; unfold get_hostname;
      destruct (gethostbyaddr (AF_INET ip)); simpl; repeat split;
      reflexivity || discriminate.
  - destruct sh; simpl; unfold get_hostname;
      destruct (gethostbyaddr (AF_INET ip)); simpl; repeat split;
      reflexivity || discriminate.
Qed.

Lemma get_ipv4_info_fields (ipStr : string) (p : Z) (bs sh : bool)
    (ip : in_addr) :
  0 <= p <= 32 ->
  inet_pton4 (cidr_pad (cidr_scan 3 ipStr) ipStr) = Some ip ->
  let o := ipv4_info ipStr p bs sh in
  let mask := prefix2mask host p in
  let net := calc_network host ip p in
  let bc := calc_broadcast host ip p in
  netmask (info o) = Some (inet_ntop4 mask)
  /\ prefix (info o) = p
  /\ network (info o) = Some (inet_ntop4 net)
  /\ broadcast (info o) = Some (inet_ntop4 bc)
  /\ type (info o) = Some (ipv4_net_to_type host net)
  /\ hostmin (info o) =
       Some (inet_ntop4
               (if p <=? 30
                then {| s_addr :=
                          htonl host (Z.lor (ntohl host (s_addr net)) 1) |}
                else net))
  /\ hostmax (info o) =
       Some (inet_ntop4
               (if p <=? 30
                then {| s_addr :=
                          htonl host
                            (to_uint32 (ntohl host (s_addr bc) - 1)) |}
                else if p <? 32 then bc else net))
  /\ ret o = (if sh then match gethostbyaddr (AF_INET ip) with
                         | None => -1 | Some _ => 0 end
              else 0)
  /\ (ret o = 0 -> stderr o = []).
Proof.
  intros Hp Hip.
  pose proof (get_ipv4_info_outcome ipStr p bs sh ip) as H.
  destruct (Z.leb_spec 0 p); [ | lia ]. apply H; [ lia | exact Hip ].
Qed.

Lemma get_ipv4_info_rejects (ipStr : string) (p : Z) (bs sh : bool)
    (ip : in_addr) :
  32 < p ->
  inet_pton4 (cidr_pad (cidr_scan 3 ipStr) ipStr) = Some ip ->
  ipv4_info ipStr p bs sh
  = {| ret := -1; info := info_zero;
       stderr := report bs (bad_IPv4_prefix p) |}.
Proof.
  intros Hp Hip. unfold get_ipv4_info.
  destruct (Z.leb_spec 0 p); [ | lia ]. rewrite Hip.
  destruct (Z.ltb_spec 32 p); [ reflexivity | lia ].
Qed.

Lemma get_ipv6_info_rejects (ipStr : string) (p : Z) (bs sh : bool)
    (ip6 : in6_addr) :
  p = 0 \/ 128 < p ->
  inet_pton6 ipStr = Some ip6 ->
  ipv6_info ipStr p bs sh
  = {| ret := -1; info := set_expanded_ip (Some (expand_ipv6 ip6)) info_zero;
       stderr := report bs (bad_IPv6_prefix p) |}.
Proof.
  intros Hp Hip. unfold get_ipv6_info. rewrite Hip.
  destruct (Z.eqb_spec p 0), (Z.ltb_spec 128 p); try lia; reflexivity.
Qed.

Lemma ipv6_prefix_to_mask_some (p : Z) :
  1 <= p <= 128 ->
  exists mask,
    ipv6_prefix_to_mask inet_ntop6 p = Some (inet_ntop6 mask, mask)
    /\ s6_addr mask = ipv6_mask_loop p 0 (replicate 16 0)
    /\ length (s6_addr mask) = 16%nat
    /\ Forall byte_range (s6_addr mask).
Proof.
  intros Hp. unfold ipv6_prefix_to_mask.
  destruct (Z.eqb_spec p 0); [ lia | ].
  destruct (Z.ltb_spec 128 p); [ lia | ]. simpl.
  rewrite int_wrap_small by lia.
  eexists. split; [ reflexivity | ]. simpl. split; [ reflexivity | ]. split.
  - rewrite ipv6_mask_loop_length. reflexivity.
  - apply ipv6_mask_loop_bytes. repeat constructor; unfold byte_range; lia.
Qed.

(** The loop of [ipv6_prefix_to_mask] sets the top [p] bits: checked on
    each of the 128 prefixes. *)
Lemma ipv6_mask_loop_top_bits (p : Z) :
  1 <= p <= 128 ->
  ipv6_mask_loop p 0 (replicate 16 0) = map (mask6_byte p) (seq 0 16).
Proof.
  intros Hp.
  assert (H : Forall (fun n : nat =>
                        ipv6_mask_loop (Z.of_nat n) 0 (replicate 16 0)
                        = map (mask6_byte (Z.of_nat n)) (seq 0 16))
                     (seq 1 128)).
  { apply (bool_decide_eq_true_1 _). vm_compute. reflexivity. }
  rewrite Forall_forall in H.
  rewrite <- (Z2Nat.id p) by lia. apply H.
  apply list_elem_of_In, in_seq. lia.
Qed.

Lemma get_ipv6_info_fields (ipStr : string) (p : Z) (bs sh : bool)
    (ip6 : in6_addr) :
  inet_pton6 ipStr = Some ip6 ->
  length (s6_addr ip6) = 16%nat ->
  p < 0 \/ 1 <= p <= 128 ->
  let q := if p <? 0 then 128 else p in
  let o := ipv6_info ipStr p bs sh in
  exists mask,
    ipv6_prefix_to_mask inet_ntop6 q = Some (inet_ntop6 mask, mask)
    /\ s6_addr mask = ipv6_mask_loop q 0 (replicate 16 0)
    /\ length (s6_addr mask) = 16%nat
    /\ Forall byte_range (s6_addr mask)
    /\ let net :=
         {| s6_addr := zip_with Z.land (s6_addr ip6) (s6_addr mask) |} in
       prefix (info o) = q
       /\ netmask (info o) = Some (inet_ntop6 mask)
       /\ network (info o) = Some (inet_ntop6 net)
       /\ type (info o) = Some (ipv6_net_to_type net)
       /\ hostmin (info o) = Some (inet_ntop6 net)
       /\ hostmax (info o) =
            Some (inet_ntop6
                    (if q <? 128 then
                       {| s6_addr := zip_with (fun x y => Z.lor x (255 - y))
                                       (s6_addr net) (s6_addr mask) |}
                     else net))
       /\ ret o = (if sh then match gethostbyaddr (AF_INET6 ip6) with
                              | None => -1 | Some _ => 0 end
                   else 0)
       /\ (ret o = 0 -> stderr o = []).
Proof.
  intros Hip Hlen Hp q o.
  assert (Hq : 1 <= q <= 128) by (subst q; destruct (Z.ltb_spec p 0); lia).
  destruct (ipv6_prefix_to_mask_some q Hq) as (mask & Hmask & Hme & Hml & Hmb).
  exists mask. split; [ exact Hmask | ]. split; [ exact Hme | ].
  split; [ exact Hml | ]. split; [ exact Hmb | ].
  subst o. unfold get_ipv6_info. rewrite Hip.
  destruct (Z.eqb_spec p 0); [ lia | ].
  destruct (Z.ltb_spec 128 p); [ lia | ]. cbv zeta. fold q.
  replace (to_uint32 q) with q by (unfold to_uint32; rewrite Z.mod_small; lia).
  rewrite Hmask, network_loop_zip by assumption.
  assert (Hnl : length (zip_with Z.land (s6_addr ip6) (s6_addr mask)) = 16%nat).
  { rewrite length_zip_with. lia. }
  destruct (Z.ltb_spec q 128); cbn [orb s6_addr].
  - rewrite hostmax_loop_zip, zip_or_inverted
      by auto using zip_land_bytes.
    destruct sh; simpl; unfold get_hostname;
      destruct (gethostbyaddr (AF_INET6 ip6)); simpl; repeat split;
      reflexivity || discriminate.
  - destruct sh; simpl; unfold get_hostname;
      destruct (gethostbyaddr (AF_INET6 ip6)); simpl; repeat split;
      reflexivity || discriminate.
Qed.

(** C2.  For a valid IPv4 address and a prefix in 0..32 the reported
    network address is the bitwise AND of the address with the netmask of
    the prefix, and the reported broadcast address is the bitwise OR of
    that network address with the complement of the netmask; the netmask
    is the one whose top [p] bits are set. *)
Theorem ipv4_network_and_broadcast (ipStr : string) (p : Z) (bs sh : bool)
    (ip : in_addr) :
  0 <= p <= 32 ->
  inet_pton4 (cidr_pad (cidr_scan 3 ipStr) ipStr) = Some ip ->
  let o := ipv4_info ipStr p bs sh in
  let mask := s_addr (prefix2mask host p) in
  let network_ := Z.land (s_addr ip) mask in
  let broadcast_ := Z.lor network_ (not32 mask) in
  ntohl host mask = mask_of_prefix p
  /\ netmask (info o) = Some (inet_ntop4 {| s_addr := mask |})
  /\ network (info o) = Some (inet_ntop4 {| s_addr := network_ |})
  /\ broadcast (info o) = Some (inet_ntop4 {| s_addr := broadcast_ |})
  /\ calc_network host ip p = {| s_addr := network_ |}
  /\ calc_broadcast host ip p = {| s_addr := broadcast_ |}
  /\ ntohl host network_
     = Z.land (ntohl host (s_addr ip)) (mask_of_prefix p)
  /\ ntohl host broadcast_ = ntohl host network_ + 2 ^ (32 - p) - 1.
Proof.
  intros Hp Hip o mask network_ broadcast_.
  subst o mask network_ broadcast_.
  destruct (get_ipv4_info_fields ipStr p bs sh ip Hp Hip)
    as (Hm & _ & Hn & Hb & _).
  split; [ apply prefix2mask_host_order; lia | ].
  split; [ rewrite Hm; destruct (prefix2mask host p); reflexivity | ].
  split; [ exact Hn | ]. split; [ exact Hb | ].
  split; [ reflexivity | ]. split; [ reflexivity | ].
  split.
  - exact (calc_network_host_order host ip p Hp).
  - exact (calc_broadcast_host_order host ip p Hp).
Qed.

(** C3.  For a valid IPv4 address and a prefix up to 30 the reported
    host-min is the network address plus one and host-max the broadcast
    address minus one (in host order, without wrap-around); for prefix 31
    and 32 host-min is the network address and host-max the broadcast
    address. *)
Theorem ipv4_host_range (ipStr : string) (p : Z) (bs sh : bool)
    (ip : in_addr) :
  0 <= p <= 32 ->
  inet_pton4 (cidr_pad (cidr_scan 3 ipStr) ipStr) = Some ip ->
  let o := ipv4_info ipStr p bs sh in
  let net := calc_network host ip p in
  let bc := calc_broadcast host ip p in
  network (info o) = Some (inet_ntop4 net)
  /\ broadcast (info o) = Some (inet_ntop4 bc)
  /\ if p <=? 30 then
       hostmin (info o)
       = Some (inet_ntop4
                 {| s_addr := htonl host (ntohl host (s_addr net) + 1) |})
       /\ hostmax (info o)
          = Some (inet_ntop4
                    {| s_addr := htonl host (ntohl host (s_addr bc) - 1) |})
       /\ 0 <= ntohl host (s_addr net)
       /\ ntohl host (s_addr net) + 1 <= ntohl host (s_addr bc) - 1
       /\ ntohl host (s_addr bc) < 2 ^ 32
     else
       hostmin (info o) = Some (inet_ntop4 net)
       /\ hostmax (info o) = Some (inet_ntop4 bc).
Proof.
  intros Hp Hip o net bc.
  destruct (get_ipv4_info_fields ipStr p bs sh ip Hp Hip)
    as (_ & _ & Hn & Hb & _ & Hmin & Hmax & _).
  fold o net bc in Hn, Hb, Hmin, Hmax.
  split; [ exact Hn | ]. split; [ exact Hb | ].
  pose proof (calc_network_range host ip p Hp) as Hr. fold net in Hr.
  pose proof (calc_broadcast_host_order host ip p Hp) as Hbc.
  fold net bc in Hbc.
  pose proof (mask_of_prefix_range p Hp) as HM. unfold mask_of_prefix in *.
  destruct (Z.leb_spec p 30) as [H30 | H30].
  - assert (4 <= 2 ^ (32 - p)).
    { change 4 with (2 ^ 2). apply Z.pow_le_mono_r; lia. }
    rewrite Hmin, Hmax. split; [ | split; [ | lia ] ].
    + do 4 f_equal. apply Z.or_to_plus.
      unfold net. rewrite calc_network_host_order by lia.
      apply land_mask_even. lia.
    + do 4 f_equal. unfold to_uint32. apply Z.mod_small. lia.
  - rewrite Hmin, Hmax. split; [ reflexivity | ].
    destruct (Z.ltb_spec p 32) as [H32 | H32]; [ reflexivity | ].
    assert (p = 32) by lia. subst p.
    assert (E : s_addr (prefix2mask host 32) = 4294967295)
      by (destruct host; reflexivity).
    do 2 f_equal. unfold bc, net, calc_broadcast, calc_network.
    cbv zeta. rewrite E. change (not32 4294967295) with 0.
    rewrite Z.lor_0_r. reflexivity.
Qed.

(** C4.  For a valid IPv6 address and a prefix in 1..127 the reported
    host-min is the network address (the byte-wise AND of the address
    with the mask of the prefix, its top [p] bits) and host-max is the
    byte-wise OR of the network address with the inverted mask; for
    prefix 128 host-min and host-max are both the network address. *)
Theorem ipv6_host_range (ipStr : string) (p : Z) (bs sh : bool)
    (ip6 : in6_addr) :
  inet_pton6 ipStr = Some ip6 ->
  in6_wf ip6 = true ->
  1 <= p <= 128 ->
  let o := ipv6_info ipStr p bs sh in
  exists mask,
    ipv6_prefix_to_mask inet_ntop6 p = Some (inet_ntop6 mask, mask)
    /\ s6_addr mask = map (mask6_byte p) (seq 0 16)
    /\ netmask (info o) = Some (inet_ntop6 mask)
    /\ let net :=
         {| s6_addr := zip_with Z.land (s6_addr ip6) (s6_addr mask) |} in
       network (info o) = Some (inet_ntop6 net)
       /\ hostmin (info o) = Some (inet_ntop6 net)
       /\ hostmax (info o) =
            Some (inet_ntop6
                    (if p <? 128 then
                       {| s6_addr := zip_with (fun x y => Z.lor x (255 - y))
                                       (s6_addr net) (s6_addr mask) |}
                     else net)).
Proof.
  intros Hip Hwf Hp o. apply in6_wf_spec in Hwf as [Hlen _].
  destruct (get_ipv6_info_fields ipStr p bs sh ip6 Hip Hlen (or_intror Hp))
    as (mask & Hmask & Hme & _ & _ & _ & Hnm & Hnet & _ & Hmin & Hmax & _).
  destruct (Z.ltb_spec p 0); [ lia | ].
  rewrite ipv6_mask_loop_top_bits in Hme by lia.
  exists mask. repeat split; assumption.
Qed.

(** C6.  [get_ipv6_info] rejects prefix 0 and every prefix above 128 as
    a bad IPv6 prefix, and like [ipv6_prefix_to_mask] accepts no such
    prefix; [get_ipv4_info] accepts prefix 0 and rejects exactly the
    prefixes above 32. *)
Theorem prefix_validation (ipStr4 ipStr6 : string) (p : Z) (bs sh : bool)
    (ip : in_addr) (ip6 : in6_addr) :
  inet_pton4 (cidr_pad (cidr_scan 3 ipStr4) ipStr4) = Some ip ->
  inet_pton6 ipStr6 = Some ip6 ->
  in6_wf ip6 = true ->
  0 <= p ->
  lookup_succeeds gethostbyaddr sh (AF_INET ip) ->
  lookup_succeeds gethostbyaddr sh (AF_INET6 ip6) ->
  let o4 := ipv4_info ipStr4 p bs sh in
  let o6 := ipv6_info ipStr6 p bs sh in
  ret o6 = (if (p =? 0) || (128 <? p) then -1 else 0)
  /\ stderr o6 = (if (p =? 0) || (128 <? p)
                  then report bs (bad_IPv6_prefix p) else [])
  /\ (p = 0 \/ 128 < p -> ipv6_prefix_to_mask inet_ntop6 p = None)
  /\ ret o4 = (if 32 <? p then -1 else 0)
  /\ stderr o4 = (if 32 <? p then report bs (bad_IPv4_prefix p) else [])
  /\ (p = 0 ->
      prefix (info o4) = 0
      /\ netmask (info o4) = Some (inet_ntop4 {| s_addr := 0 |})).
Proof.
  intros Hip4 Hip6 Hwf Hp Hl4 Hl6 o4 o6. subst o4 o6.
  apply in6_wf_spec in Hwf as [Hlen _].
  assert (R6 : ret (ipv6_info ipStr6 p bs sh)
               = (if (p =? 0) || (128 <? p) then -1 else 0)
             /\ stderr (ipv6_info ipStr6 p bs sh)
                = (if (p =? 0) || (128 <? p)
                   then report bs (bad_IPv6_prefix p) else [])).
  { destruct (Z.eqb_spec p 0) as [H0 | H0];
      [ rewrite get_ipv6_info_rejects with (ip6 := ip6) by auto;
        split; reflexivity | ].
    destruct (Z.ltb_spec 128 p) as [H128 | H128];
      [ rewrite get_ipv6_info_rejects with (ip6 := ip6) by auto;
        split; reflexivity | ].
    assert (Hr : p < 0 \/ 1 <= p <= 128) by lia.
    destruct (get_ipv6_info_fields ipStr6 p bs sh ip6 Hip6 Hlen Hr)
      as (mask & _ & _ & _ & _ & _ & _ & _ & _ & _ & _ & Hret & Herr).
    assert (Hz : ret (ipv6_info ipStr6 p bs sh) = 0).
    { rewrite Hret. destruct sh; [ | reflexivity ].
      specialize (Hl6 eq_refl).
      destruct (gethostbyaddr (AF_INET6 ip6)); [ reflexivity | ].
      contradiction. }
    simpl. auto. }
  destruct R6 as [R6 E6]. split; [ exact R6 | ]. split; [ exact E6 | ].
  split.
  { intros Hbad. unfold ipv6_prefix_to_mask.
    destruct (Z.eqb_spec p 0), (Z.ltb_spec 128 p); try lia; reflexivity. }
  destruct (Z.ltb_spec 32 p) as [H32 | H32].
  { rewrite get_ipv4_info_rejects with (ip := ip) by auto.
    split; [ reflexivity | ]. split; [ reflexivity | ]. intros ->. lia. }
  destruct (get_ipv4_info_fields ipStr4 p bs sh ip (conj Hp H32) Hip4)
    as (Hnm & Hpre & _ & _ & _ & _ & _ & Hret & Herr).
  assert (Hz : ret (ipv4_info ipStr4 p bs sh) = 0).
  { rewrite Hret. destruct sh; [ | reflexivity ].
    specialize (Hl4 eq_refl).
    destruct (gethostbyaddr (AF_INET ip)); [ reflexivity | ].
    contradiction. }
  split; [ exact Hz | ]. split; [ auto | ].
  intros ->. split; [ exact Hpre | ].
  rewrite Hnm. do 2 f_equal. destruct host; reflexivity.
Qed.

(** C9.  With a prefix supplied, an address string of fewer than four
    dotted components is extended by [.0] components to exactly four
    before [inet_pton] reads it: the call behaves as on the extended
    string, whose parse decides failure and the reported network. *)
Theorem cidr_shorthand_padding (ipStr : string) (p : Z) (bs sh : bool) :
  0 <= p ->
  (length (dotted_components ipStr) < 4)%nat ->
  let padded :=
    (ipStr ++ zero_components (4 - length (dotted_components ipStr)))%string
  in
  length (dotted_components padded) = 4%nat
  /\ cidr_pad (cidr_scan 3 ipStr) ipStr = padded
  /\ ipv4_info ipStr p bs sh = ipv4_info padded p bs sh
  /\ (inet_pton4 padded = None ->
      ipv4_info ipStr p bs sh
      = {| ret := -1; info := info_zero;
           stderr := report bs (bad_IPv4_address padded) |})
  /\ (forall ip, inet_pton4 padded = Some ip -> p <= 32 ->
      network (info (ipv4_info ipStr p bs sh))
      = Some (inet_ntop4 (calc_network host ip p))).
Proof.
  intros Hp Hlen padded.
  pose proof (dotted_components_nonempty ipStr) as Hne.
  assert (H1 : (1 <= length (dotted_components ipStr))%nat).
  { destruct (dotted_components ipStr); [ contradiction | simpl; lia ]. }
  assert (Hpl : length (dotted_components padded) = 4%nat).
  { subst padded. rewrite components_append_zero. lia. }
  assert (Hpad : cidr_pad (cidr_scan 3 ipStr) ipStr = padded).
  { rewrite cidr_pad_append, cidr_scan_components. subst padded.
    do 2 f_equal. lia. }
  assert (Hfix : cidr_pad (cidr_scan 3 padded) padded = padded).
  { rewrite cidr_scan_components, Hpl. reflexivity. }
  split; [ exact Hpl | ]. split; [ exact Hpad | ].
  split; [ | split ].
  - unfold get_ipv4_info. rewrite Hpad, Hfix.
    destruct (Z.leb_spec 0 p); [ reflexivity | lia ].
  - intros Hnone. unfold get_ipv4_info.
    destruct (Z.leb_spec 0 p); [ | lia ]. rewrite Hpad, Hnone. reflexivity.
  - intros ip Hsome H32. rewrite <- Hpad in Hsome.
    destruct (get_ipv4_info_fields ipStr p bs sh ip (conj Hp H32) Hsome)
      as (_ & _ & Hn & _). exact Hn.
Qed.

(** C10.  Called without a prefix (a negative [prefix] argument, as
    [main] passes when none was given) on an address that
    [inet_pton] reads, both info functions succeed: the prefix becomes
    32 for IPv4 and 128 for IPv6, and network address, host-min and
    host-max are all the address itself. *)
Theorem default_prefix_single_host (ipStr4 ipStr6 : string) (p : Z)
    (bs sh : bool) (ip : in_addr) (ip6 : in6_addr) :
  p < 0 ->
  inet_pton4 ipStr4 = Some ip ->
  0 <= s_addr ip < 2 ^ 32 ->
  inet_pton6 ipStr6 = Some ip6 ->
  in6_wf ip6 = true ->
  lookup_succeeds gethostbyaddr sh (AF_INET ip) ->
  lookup_succeeds gethostbyaddr sh (AF_INET6 ip6) ->
  let o4 := ipv4_info ipStr4 p bs sh in
  let o6 := ipv6_info ipStr6 p bs sh in
  (ret o4 = 0 /\ stderr o4 = [] /\ prefix (info o4) = 32
   /\ network (info o4) = Some (inet_ntop4 ip)
   /\ hostmin (info o4) = Some (inet_ntop4 ip)
   /\ hostmax (info o4) = Some (inet_ntop4 ip))
  /\ (ret o6 = 0 /\ stderr o6 = [] /\ prefix (info o6) = 128
      /\ network (info o6) = Some (inet_ntop6 ip6)
      /\ hostmin (info o6) = Some (inet_ntop6 ip6)
      /\ hostmax (info o6) = Some (inet_ntop6 ip6)).
Proof.
  intros Hp Hip4 Hr4 Hip6 Hwf Hl4 Hl6 o4 o6. subst o4 o6. split.
  - pose proof (get_ipv4_info_outcome ipStr4 p bs sh ip) as H.
    destruct (Z.leb_spec 0 p); [ lia | ].
    destruct (H ltac:(lia) Hip4)
      as (_ & Hpre & Hnet & _ & _ & Hmin & Hmax & Hret & Herr).
    assert (Hz : ret (ipv4_info ipStr4 p bs sh) = 0).
    { rewrite Hret. destruct sh; [ | reflexivity ].
      specialize (Hl4 eq_refl).
      destruct (gethostbyaddr (AF_INET ip)); [ reflexivity | ].
      contradiction. }
    assert (E : calc_network host ip 32 = ip).
    { unfold calc_network. cbv zeta.
      replace (s_addr (prefix2mask host 32)) with (Z.ones 32)
        by (destruct host; reflexivity).
      rewrite Z.land_ones, Z.mod_small by lia. destruct ip; reflexivity. }
    change (32 <=? 30) with false in Hmin, Hmax.
    change (32 <? 32) with false in Hmax. rewrite E in *.
    repeat split; auto.
  - apply in6_wf_spec in Hwf as [Hlen Hbytes].
    destruct (get_ipv6_info_fields ipStr6 p bs sh ip6 Hip6 Hlen
                (or_introl Hp))
      as (mask & _ & Hme & _ & _ & Hpre & _ & Hnet & _ & Hmin & Hmax
          & Hret & Herr).
    destruct (Z.ltb_spec p 0); [ | lia ].
    assert (Hz : ret (ipv6_info ipStr6 p bs sh) = 0).
    { rewrite Hret. destruct sh; [ | reflexivity ].
      specialize (Hl6 eq_refl).
      destruct (gethostbyaddr (AF_INET6 ip6)); [ reflexivity | ].
      contradiction. }
    assert (E : {| s6_addr := zip_with Z.land (s6_addr ip6) (s6_addr mask) |}
                = ip6).
    { rewrite Hme.
      change (ipv6_mask_loop 128 0 (replicate 16 0))
        with (replicate 16 255).
      rewrite <- Hlen, zip_land_ones by assumption.
      destruct ip6; reflexivity. }
    change (128 <? 128) with false in Hmax. rewrite E in *.
    repeat split; auto.
Qed.

End InfoFacts.

(** ** Prefix and netmask *)

(** C1.  For every prefix from 1 to 32 the netmask [prefix2mask] builds
    is mapped back to the prefix by [bit_count]; the all-zero mask of
    prefix 0 is refused with -1. *)
Theorem mask_prefix_roundtrip (host : byte_order) (p : Z) :
  0 <= p <= 32 ->
  bit_count (ntohl host (s_addr (prefix2mask host p)))
  = if p =? 0 then -1 else p.
Proof.
  intros Hp. rewrite prefix2mask_host_order by lia.
  apply bit_count_mask, Hp.
Qed.

(** The same on the text of the mask, for a C library that reads back
    what it wrote. *)
Lemma mask_text_roundtrip (host : byte_order)
    (inet_pton4 : string -> option in_addr)
    (inet_ntop4 : in_addr -> string) (p : Z) :
  1 <= p <= 32 ->
  inet_pton4 (inet_ntop4 (prefix2mask host p)) = Some (prefix2mask host p) ->
  ipv4_mask_to_int host inet_pton4 (inet_ntop4 (prefix2mask host p)) = p.
Proof.
  intros Hp Hrt. unfold ipv4_mask_to_int. rewrite Hrt.
  rewrite prefix2mask_host_order, bit_count_mask by lia.
  destruct (Z.eqb_spec p 0); [ lia | reflexivity ].
Qed.

(** C1, as stated for all of 0..32, fails: prefix 0 does not come
    back. *)
Lemma mask_prefix_roundtrip_fails_at_0 :
  ~ (forall p : Z, 0 <= p <= 32 ->
       bit_count (ntohl LittleEndian (s_addr (prefix2mask LittleEndian p)))
       = p).
Proof.
  intros H. specialize (H 0 ltac:(lia)). vm_compute in H. discriminate.
Qed.

(** C5.  [bit_count] takes the mask 0.255.0.0, whose leading zero bits
    precede one bits, for a mask of 8 bits, which [prefix2mask] turns
    into 255.0.0.0; the masks 255.0.255.0 and 0.0.0.0 are refused. *)
Theorem mask_with_leading_zeros_accepted :
  bit_count 0x00ff0000 = 8
  /\ Libc.mask_to_int "0.255.0.0" = 8
  /\ Libc.inet_ntop4 (prefix2mask Libc.host 8) = "255.0.0.0"%string
  /\ Libc.mask_to_int "255.0.255.0" = -1
  /\ Libc.mask_to_int "0.0.0.0" = -1.
Proof. repeat split; vm_compute; reflexivity. Qed.

(** ** The IPv6 classifier *)

Lemma land_fffe_odd (w k : Z) : Z.land w 0xfffe = 2 * k + 1 -> False.
Proof.
  intros H. apply (f_equal (fun z => Z.testbit z 0)) in H.
  rewrite Z.land_spec, Z.testbit_odd_0 in H.
  change (Z.testbit 65534 0) with false in H.
  rewrite andb_false_r in H. discriminate.
Qed.

(** C7.  No address is ever labelled "IETF Protocol Assignments": the
    test masks the low bit of the first word away and compares with the
    odd value 0x2001.  The network 2001:: is labelled "Global Unicast". *)
Theorem ietf_protocol_label_never_given :
  (forall net : in6_addr,
     ipv6_net_to_type net <> "IETF Protocol Assignments"%string)
  /\ ipv6_net_to_type
       {| s6_addr := [0x20; 0x01; 0; 0; 0; 0; 0; 0; 0; 0; 0; 0; 0; 0; 0; 0] |}
     = "Global Unicast"%string.
Proof.
  split; [ | reflexivity ].
  intros net. unfold ipv6_net_to_type.
  repeat match goal with
  | |- context [if ?b then _ else _] =>
      let E := fresh "E" in destruct b eqn:E
  end; try discriminate.
  match goal with
  | H : (Z.land _ 65534 =? 8193) && _ = true |- _ =>
      apply andb_true_iff in H as [H _]; apply Z.eqb_eq in H;
      exfalso; exact (land_fffe_odd _ 0x1000 H)
  end.
Qed.

(** The block the test is written for, 2001::/23 with a zero second
    word, is labelled by the test that follows it. *)
Lemma ietf_block_labelled_global_unicast (net : in6_addr) :
  take 4 (s6_addr net) = [0x20; 0x01; 0; 0] ->
  ipv6_net_to_type net = "Global Unicast"%string.
Proof.
  destruct net as [l]. simpl. intros H.
  do 4 (destruct l as [| ? l]; [ discriminate | ]).
  simpl in H. injection H as -> -> -> ->.
  unfold ipv6_net_to_type, memcmp_eq. simpl.
  repeat case_bool_decide; try discriminate; reflexivity.
Qed.

(** The label of the discard-only block goes to the networks of
    1000::/96. *)
Example discard_only_label_given :
  ipv6_net_to_type
    {| s6_addr := [0x10; 0; 0; 0; 0; 0; 0; 0; 0; 0; 0; 0; 0; 0; 0; 0] |}
  = "Discard-Only Address Block"%string.
Proof. reflexivity. Qed.

(** C8.  Every network whose first 64 bits are those of 100:: falls
    through all the tests and is labelled "Reserved": the test for the
    discard-only block compares the first 96 bits with those of 1000::. *)
Theorem discard_only_block_reserved (net : in6_addr) :
  take 8 (s6_addr net) = [1; 0; 0; 0; 0; 0; 0; 0] ->
  ipv6_net_to_type net = "Reserved"%string.
Proof.
  destruct net as [l]. simpl. intros H.
  do 8 (destruct l as [| ? l]; [ discriminate | ]).
  simpl in H. injection H as -> -> -> -> -> -> -> ->.
  unfold ipv6_net_to_type, memcmp_eq. simpl.
  repeat case_bool_decide; try discriminate; reflexivity.
Qed.

(** ** Runs of the info functions *)

Example private_network_24 :
  Libc.ipv4_info "192.168.1.5" 24 false false
  = {| ret := 0;
       info := {| expanded_ip := None; expanded_network := None;
                  network := Some "192.168.1.0"%string;
                  broadcast := Some "192.168.1.255"%string;
                  netmask := Some "255.255.255.0"%string;
                  hostname := None; prefix := 24;
                  hostmin := Some "192.168.1.1"%string;
                  hostmax := Some "192.168.1.254"%string;
                  type := Some "Private Use"%string |};
       stderr := [] |}.
Proof. vm_compute. reflexivity. Qed.

Example point_to_point_31 :
  let o := Libc.ipv4_info "10.0.0.1" 31 false false in
  hostmin (info o) = Some "10.0.0.0"%string
  /\ hostmax (info o) = Some "10.0.0.1"%string.
Proof. vm_compute. split; reflexivity. Qed.

(** The test for TEST-NET-1 compares the second and third byte with 2
    and 0. *)
Example test_net_1 :
  type (info (Libc.ipv4_info "192.2.0.5" 24 false false))
  = Some "Documentation (TEST-NET-1)"%string
  /\ type (info (Libc.ipv4_info "192.0.2.5" 24 false false))
     = Some "Internet or Reserved for Future use"%string.
Proof. vm_compute. split; reflexivity. Qed.

Example hostname_not_found :
  Libc.ipv4_info "10.0.0.1" 8 false true
  = {| ret := -1;
       info := info (Libc.ipv4_info "10.0.0.1" 8 false false);
       stderr := [cannot_find_hostname "10.0.0.1"] |}.
Proof. vm_compute. reflexivity. Qed.

Example ipv6_network_32 :
  let o := Libc.ipv6_info "2001:db8:0:0:0:0:0:1" 32 false false in
  expanded_ip (info o)
  = Some "2001:0db8:0000:0000:0000:0000:0000:0001"%string
  /\ expanded_network (info o)
     = Some "2001:0db8:0000:0000:0000:0000:0000:0000"%string
  /\ type (info o) = Some "Global Unicast"%string.
Proof. vm_compute. repeat split; reflexivity. Qed.

(** * The theorems at concrete inputs

    Each theorem that has hypotheses is applied here to an input on which
    the functions run, with the C library of [Libc]. *)

Lemma mask_prefix_roundtrip_witness :
  bit_count (ntohl LittleEndian (s_addr (prefix2mask LittleEndian 24))) = 24.
Proof. exact (mask_prefix_roundtrip LittleEndian 24 ltac:(lia)). Defined.

Lemma ipv4_network_and_broadcast_witness :
  let o := Libc.ipv4_info "192.168.1.5" 24 false false in
  netmask (info o) = Some "255.255.255.0"%string
  /\ network (info o) = Some "192.168.1.0"%string
  /\ broadcast (info o) = Some "192.168.1.255"%string.
Proof.
  destruct (ipv4_network_and_broadcast Libc.host Libc.inet_pton4
              Libc.inet_ntop4 Libc.gethostbyaddr "192.168.1.5" 24 false false
              {| s_addr := htonl Libc.host 0xc0a80105 |}
              ltac:(lia) eq_refl)
    as (_ & Hm & Hn & Hb & _).
  intros o. split; [ | split ];
    [ etransitivity; [ exact Hm | ] | etransitivity; [ exact Hn | ]
    | etransitivity; [ exact Hb | ] ]; reflexivity.
Defined.

Lemma ipv4_host_range_witness :
  let o := Libc.ipv4_info "192.168.1.5" 24 false false in
  hostmin (info o) = Some "192.168.1.1"%string
  /\ hostmax (info o) = Some "192.168.1.254"%string.
Proof.
  destruct (ipv4_host_range Libc.host Libc.inet_pton4 Libc.inet_ntop4
              Libc.gethostbyaddr "192.168.1.5" 24 false false
              {| s_addr := htonl Libc.host 0xc0a80105 |}
              ltac:(lia) eq_refl)
    as (_ & _ & H).
  change (24 <=? 30) with true in H. destruct H as (Hmin & Hmax & _).
  intros o.
  split; [ etransitivity; [ exact Hmin | ]
        | etransitivity; [ exact Hmax | ] ];
    reflexivity.
Defined.

Lemma ipv6_host_range_witness :
  let o := Libc.ipv6_info "2001:db8:0:0:0:0:0:1" 32 false false in
  hostmin (info o) = Some "2001:0db8:0000:0000:0000:0000:0000:0000"%string
  /\ hostmax (info o)
     = Some "2001:0db8:ffff:ffff:ffff:ffff:ffff:ffff"%string.
Proof.
  destruct (ipv6_host_range Libc.inet_pton6 Libc.inet_ntop6
              Libc.gethostbyaddr "2001:db8:0:0:0:0:0:1" 32 false false
              {| s6_addr := [0x20; 0x01; 0x0d; 0xb8; 0; 0; 0; 0;
                             0; 0; 0; 0; 0; 0; 0; 1] |}
              eq_refl eq_refl ltac:(lia))
    as (mask & Hmask & _ & _ & _ & Hmin & Hmax).
  change (ipv6_prefix_to_mask Libc.inet_ntop6 32)
    with (let m := {| s6_addr := [255; 255; 255; 255; 0; 0; 0; 0;
                                  0; 0; 0; 0; 0; 0; 0; 0] |} in
          Some (Libc.inet_ntop6 m, m)) in Hmask.
  cbv zeta in Hmask.
  pose proof (f_equal (fun r => match r with
                                | Some (_, y) => y
                                | None => mask
                                end) Hmask) as Em.
  cbv beta iota in Em. destruct Em. intros o.
  split; [ etransitivity; [ exact Hmin | ]
        | etransitivity; [ exact Hmax | ] ];
    reflexivity.
Defined.

Lemma prefix_validation_witness :
  ret (Libc.ipv6_info "2001:db8:0:0:0:0:0:1" 0 false false) = -1
  /\ ret (Libc.ipv4_info "10.0.0.1" 0 false false) = 0
  /\ netmask (info (Libc.ipv4_info "10.0.0.1" 0 false false))
     = Some "0.0.0.0"%string.
Proof.
  destruct (prefix_validation Libc.host Libc.inet_pton4 Libc.inet_ntop4
              Libc.inet_pton6 Libc.inet_ntop6 Libc.gethostbyaddr
              "10.0.0.1" "2001:db8:0:0:0:0:0:1" 0 false false
              {| s_addr := htonl Libc.host 0x0a000001 |}
              {| s6_addr := [0x20; 0x01; 0x0d; 0xb8; 0; 0; 0; 0;
                             0; 0; 0; 0; 0; 0; 0; 1] |}
              eq_refl eq_refl eq_refl ltac:(lia)
              ltac:(intro; discriminate) ltac:(intro; discriminate))
    as (H6 & _ & _ & H4 & _ & H0).
  destruct (H0 eq_refl) as [_ Hm].
  split; [ exact H6 | split; [ exact H4 | ] ].
  etransitivity; [ exact Hm | reflexivity ].
Defined.

Lemma discard_only_block_reserved_witness :
  ipv6_net_to_type
    {| s6_addr := [0x01; 0; 0; 0; 0; 0; 0; 0; 0; 0; 0; 0; 0; 0; 0; 0] |}
  = "Reserved"%string.
Proof.
  exact (discard_only_block_reserved
           {| s6_addr := [0x01; 0; 0; 0; 0; 0; 0; 0;
                          0; 0; 0; 0; 0; 0; 0; 0] |} eq_refl).
Defined.

Lemma cidr_shorthand_padding_witness :
  cidr_pad (cidr_scan 3 "172") "172" = "172.0.0.0"%string
  /\ Libc.ipv4_info "172" 8 false false
     = Libc.ipv4_info "172.0.0.0" 8 false false
  /\ network (info (Libc.ipv4_info "172" 8 false false))
     = Some "172.0.0.0"%string.
Proof.
  destruct (cidr_shorthand_padding Libc.host Libc.inet_pton4 Libc.inet_ntop4
              Libc.gethostbyaddr "172" 8 false false
              ltac:(lia) ltac:(vm_compute; lia))
    as (_ & Hpad & Heq & _ & Hnet).
  split; [ exact Hpad | split; [ exact Heq | ] ].
  etransitivity;
    [ exact (Hnet {| s_addr := htonl Libc.host 0xac000000 |}
               eq_refl ltac:(lia)) | reflexivity ].
Defined.

Lemma default_prefix_single_host_witness :
  let o4 := Libc.ipv4_info "10.0.0.1" (-1) false false in
  let o6 := Libc.ipv6_info "2001:db8:0:0:0:0:0:1" (-1) false false in
  (ret o4 = 0 /\ prefix (info o4) = 32
   /\ network (info o4) = Some "10.0.0.1"%string
   /\ hostmin (info o4) = Some "10.0.0.1"%string
   /\ hostmax (info o4) = Some "10.0.0.1"%string)
  /\ (ret o6 = 0 /\ prefix (info o6) = 128
      /\ hostmin (info o6)
         = Some "2001:0db8:0000:0000:0000:0000:0000:0001"%string
      /\ hostmax (info o6)
         = Some "2001:0db8:0000:0000:0000:0000:0000:0001"%string).
Proof.
  destruct (default_prefix_single_host Libc.host Libc.inet_pton4
              Libc.inet_ntop4 Libc.inet_pton6 Libc.inet_ntop6
              Libc.gethostbyaddr
              "10.0.0.1" "2001:db8:0:0:0:0:0:1" (-1) false false
              {| s_addr := htonl Libc.host 0x0a000001 |}
              {| s6_addr := [0x20; 0x01; 0x0d; 0xb8; 0; 0; 0; 0;
                             0; 0; 0; 0; 0; 0; 0; 1] |}
              ltac:(lia) eq_refl
              ltac:(vm_compute; split; [ discriminate | reflexivity ])
              eq_refl eq_refl
              ltac:(intro; discriminate) ltac:(intro; discriminate))
    as ((R4 & _ & P4 & N4 & Hmin4 & Hmax4) & (R6 & _ & P6 & _ & Hmin6 & Hmax6)).
  intros o4 o6. split.
  - split; [ exact R4 | split; [ exact P4 | split; [ | split ] ] ];
      [ etransitivity; [ exact N4 | ] | etransitivity; [ exact Hmin4 | ]
      | etransitivity; [ exact Hmax4 | ] ]; reflexivity.
  - split; [ exact R6 | split; [ exact P6 | split ] ];
      [ etransitivity; [ exact Hmin6 | ] | etransitivity; [ exact Hmax6 | ] ];
      reflexivity.
Defined.

(** * Further properties

    Properties of the functions beyond the ones above: the remaining
    functions of the file and the behaviour of the info functions on
    every path. *)

(** ** Tactics for chains of tests *)

Ltac label_cases :=
  repeat match goal with
  | |- context [if ?c then _ else _] =>
      let E := fresh "E" in destruct c eqn:E
  end.

(** [lia] with the tests that succeeded and at most one of the tests
    that failed. *)
Ltac clear_failed_tests :=
  repeat match goal with E : _ = false |- _ => clear E end.

Ltac lia_one_test :=
  first
    [ solve [ clear_failed_tests; lia ]
    | match goal with
      | E : _ = false |- _ =>
          solve [ revert E; clear_failed_tests; intros E; lia ]
      end ].

Ltac split_cases H :=
  try (destruct H as [H | H]; [ | split_cases H ]).

Ltac decide_leaf :=
  split; intros Hgoal;
  [ lazymatch type of Hgoal with
    | ?s = ?s => clear Hgoal; lia_one_test
    | _ => discriminate Hgoal
    end
  | lazymatch goal with
    | |- ?s = ?s => reflexivity
    | |- _ => exfalso; split_cases Hgoal; lia_one_test
    end ].

Ltac decide_label :=
  label_cases;
  repeat match goal with |- _ /\ _ => split end;
  decide_leaf.

Ltac memcmp_hits :=
  repeat match goal with
  | E : memcmp_eq _ _ _ = true |- _ =>
      unfold memcmp_eq in E; apply bool_decide_eq_true_1 in E;
      simpl in E; injection E as E; intros; subst
  end.

(** ** Netmask text to prefix *)

Lemma run_below_32 (t n : Z) :
  0 <= t -> 1 <= n -> 2 ^ t * (2 ^ n - 1) < 2 ^ 32 -> t + n <= 32.
Proof.
  intros Ht Hn Hlt.
  destruct (Z_le_gt_dec (t + n) 32) as [Hle | Hgt]; [ exact Hle | exfalso ].
  assert (H1 : 2 ^ 32 <= 2 ^ (t + n - 1)) by (apply Z.pow_le_mono_r; lia).
  assert (H2 : 2 ^ (t + n - 1) = 2 ^ t * 2 ^ (n - 1))
    by (rewrite <- Z.pow_add_r by lia; f_equal; lia).
  assert (H3 : 2 ^ n = 2 * 2 ^ (n - 1))
    by (rewrite <- Z.pow_succ_r by lia; f_equal; lia).
  assert (0 < 2 ^ t) by (apply Z.pow_pos_nonneg; lia).
  assert (0 < 2 ^ (n - 1)) by (apply Z.pow_pos_nonneg; lia).
  nia.
Qed.

Section MaskText.
Variable host : byte_order.
Variable inet_pton4 : string -> option in_addr.

(** X2.  [ipv4_mask_to_int] returns -1 or a prefix from 1 to 32, never
    0 and never more than 32; text that [inet_pton] does not read gives
    -1. *)
Theorem ipv4_mask_to_int_range (text : string) :
  (forall a, inet_pton4 text = Some a -> 0 <= s_addr a < 2 ^ 32) ->
  let r := ipv4_mask_to_int host inet_pton4 text in
  (r = -1 \/ 1 <= r <= 32)
  /\ (inet_pton4 text = None -> r = -1).
Proof.
  intros Hr r. subst r. unfold ipv4_mask_to_int.
  destruct (inet_pton4 text) as [a |]; [ | split; [ left | ]; reflexivity ].
  split; [ | discriminate ].
  specialize (Hr a eq_refl). apply (ntohl_range host) in Hr.
  set (v := ntohl host (s_addr a)) in *.
  destruct (Z.eq_dec (bit_count v) (-1)) as [E | E]; [ left; exact E | right ].
  destruct (bit_count_loop_accepts v 0 false ltac:(lia) ltac:(lia) E)
    as [Hz | (t & n & Ht & Hn & Hrun)].
  - exfalso. apply E. rewrite Hz. reflexivity.
  - rewrite Hrun, bit_count_run by lia.
    pose proof (run_below_32 t n Ht Hn). lia.
Qed.

End MaskText.

Section MaskBack.
Variable host : byte_order.

(** X3.  A mask that is one run of [n] one bits above [t] zero bits is
    accepted with result [n]; turning that result back into a netmask
    gives the mask again exactly when the run reaches the top bit. *)
Theorem accepted_mask_restored_iff (t n : Z) :
  0 <= t -> 1 <= n -> t + n <= 32 ->
  let v := 2 ^ t * (2 ^ n - 1) in
  bit_count v = n
  /\ (ntohl host (s_addr (prefix2mask host (bit_count v))) = v
      <-> t + n = 32).
Proof.
  intros Ht Hn Hle v. subst v.
  rewrite bit_count_run by lia. split; [ reflexivity | ].
  rewrite prefix2mask_host_order, mask_of_prefix_run by lia.
  assert (0 < 2 ^ n - 1) by (pose proof (Z.pow_gt_1 2 n); lia).
  split.
  - intros E. apply Z.mul_cancel_r in E; [ | lia ].
    apply Z.pow_inj_r in E; lia.
  - intros E. replace (32 - n) with t by lia. reflexivity.
Qed.

End MaskBack.

(** ** Masks as bit patterns *)

Lemma mask_of_prefix_shift (p : Z) :
  0 <= p <= 32 -> mask_of_prefix p = Z.shiftl (Z.ones p) (32 - p).
Proof.
  intros Hp. rewrite mask_of_prefix_run, Z.shiftl_mul_pow2, Z.ones_equiv by lia.
  lia.
Qed.

Lemma mask_of_prefix_bits (p n : Z) :
  0 <= p <= 32 -> 0 <= n ->
  Z.testbit (mask_of_prefix p) n = (32 - p <=? n) && (n <? 32).
Proof.
  intros Hp Hn. rewrite mask_of_prefix_shift by lia.
  rewrite Z.shiftl_spec by lia.
  destruct (Z.leb_spec (32 - p) n), (Z.ltb_spec n 32); simpl.
  - apply Z.ones_spec_low. lia.
  - apply Z.ones_spec_high. lia.
  - apply Z.testbit_neg_r. lia.
  - apply Z.testbit_neg_r. lia.
Qed.

Lemma land_mask_floor (a p : Z) :
  0 <= p <= 32 -> 0 <= a < 2 ^ 32 ->
  Z.land a (mask_of_prefix p) = a - a mod 2 ^ (32 - p).
Proof.
  intros Hp Ha.
  assert (E : Z.land a (mask_of_prefix p)
              = Z.shiftl (Z.shiftr a (32 - p)) (32 - p)).
  { apply Z.bits_inj'. intros n Hn.
    rewrite Z.land_spec, mask_of_prefix_bits by lia.
    destruct (Z.leb_spec (32 - p) n), (Z.ltb_spec n 32); simpl.
    - rewrite Z.shiftl_spec, Z.shiftr_spec by lia.
      rewrite andb_true_r. f_equal. lia.
    - rewrite andb_false_r, Z.shiftl_spec, Z.shiftr_spec by lia.
      replace (n - (32 - p) + (32 - p)) with n by lia.
      symmetry. apply testbit_high; lia.
    - rewrite andb_false_r, Z.shiftl_spec by lia.
      symmetry. apply Z.testbit_neg_r. lia.
    - lia. }
  rewrite E, Z.shiftl_mul_pow2, Z.shiftr_div_pow2 by lia.
  pose proof (Z.div_mod a (2 ^ (32 - p))) as D.
  assert (0 < 2 ^ (32 - p)) by (apply Z.pow_pos_nonneg; lia). lia.
Qed.

Lemma top_byte (v : Z) :
  Z.shiftr (Z.land v 0xFF000000) 24 = v / 2 ^ 24 mod 2 ^ 8.
Proof.
  rewrite <- Z.land_ones, <- Z.shiftr_div_pow2 by lia.
  change 0xFF000000 with (Z.shiftl (Z.ones 8) 24).
  Z.bitblast.
Qed.

Section NetworkAlgebra.
Variable host : byte_order.

(** X4.  [default_netmask] is the netmask of prefix 8, 16 or 24,
    chosen by the first byte of the address: up to 127, up to 191, above. *)
Theorem default_netmask_class (addr : in_addr) :
  let byte1 := ntohl host (s_addr addr) / 2 ^ 24 mod 2 ^ 8 in
  default_netmask host addr
  = prefix2mask host (if byte1 <=? 127 then 8
                      else if byte1 <=? 191 then 16 else 24).
Proof.
  intros byte1. unfold default_netmask. cbv zeta. rewrite top_byte.
  fold byte1.
  destruct (byte1 <=? 127); [ | destruct (byte1 <=? 191) ]; reflexivity.
Qed.

Lemma land_lor_not32 (a m : Z) :
  Z.land (Z.lor (Z.land a m) (not32 m)) m = Z.land a m.
Proof.
  apply Z.bits_inj'. intros n Hn.
  rewrite !Z.land_spec, Z.lor_spec, Z.land_spec, not32_spec by lia.
  destruct (Z.testbit a n), (Z.testbit m n), (n <? 32); reflexivity.
Qed.

(** X5.  Network and broadcast address of a network address or of a
    broadcast address are those of the address it came from, for any prefix
    argument. *)
Theorem network_broadcast_compose (ip : in_addr) (p : Z) :
  calc_network host (calc_network host ip p) p = calc_network host ip p
  /\ calc_network host (calc_broadcast host ip p) p = calc_network host ip p
  /\ calc_broadcast host (calc_network host ip p) p
     = calc_broadcast host ip p
  /\ calc_broadcast host (calc_broadcast host ip p) p
     = calc_broadcast host ip p.
Proof.
  unfold calc_network, calc_broadcast. cbv zeta. cbn [s_addr].
  set (m := s_addr (prefix2mask host p)).
  assert (E1 : Z.land (Z.land (s_addr ip) m) m = Z.land (s_addr ip) m).
  { rewrite <- Z.land_assoc, Z.land_diag. reflexivity. }
  rewrite E1, land_lor_not32. repeat split; reflexivity.
Qed.

(** X6.  In host order the network address is the address rounded down
    to a multiple of 2^(32-p), the address lies between network and
    broadcast address, and the block has 2^(32-p) addresses. *)
Theorem address_within_network (ip : in_addr) (p : Z) :
  0 <= p <= 32 ->
  0 <= s_addr ip < 2 ^ 32 ->
  let a := ntohl host (s_addr ip) in
  let n := ntohl host (s_addr (calc_network host ip p)) in
  let b := ntohl host (s_addr (calc_broadcast host ip p)) in
  n = a - a mod 2 ^ (32 - p)
  /\ n mod 2 ^ (32 - p) = 0
  /\ n <= a <= b
  /\ b - n + 1 = 2 ^ (32 - p).
Proof.
  intros Hp Hr a n b.
  assert (Ha : 0 <= a < 2 ^ 32) by (apply ntohl_range; exact Hr).
  assert (Hn : n = a - a mod 2 ^ (32 - p)).
  { subst n. rewrite calc_network_host_order by lia.
    apply land_mask_floor; assumption. }
  assert (Hb : b = n + 2 ^ (32 - p) - 1)
    by (apply calc_broadcast_host_order; lia).
  assert (Hk : 0 < 2 ^ (32 - p)) by (apply Z.pow_pos_nonneg; lia).
  pose proof (Z.mod_pos_bound a (2 ^ (32 - p)) Hk) as Hm.
  split; [ exact Hn | ]. split; [ | lia ].
  rewrite Hn. rewrite (Z.div_mod a (2 ^ (32 - p))) at 1 by lia.
  replace (2 ^ (32 - p) * (a / 2 ^ (32 - p)) + a mod 2 ^ (32 - p)
           - a mod 2 ^ (32 - p))
    with (a / 2 ^ (32 - p) * 2 ^ (32 - p)) by lia.
  apply Z.mod_mul. lia.
Qed.

(** X7.  Networks nest: the network of prefix [p] of the network of a
    longer prefix [q] is the network of prefix [p] of the address. *)
Theorem networks_nest (ip : in_addr) (p q : Z) :
  0 <= p <= q -> q <= 32 ->
  calc_network host (calc_network host ip q) p = calc_network host ip p.
Proof.
  intros Hpq Hq. unfold calc_network. cbv zeta. cbn [s_addr]. f_equal.
  rewrite <- Z.land_assoc. f_equal.
  rewrite !prefix2mask_value by lia.
  change (htonl host) with (ntohl host). rewrite <- ntohl_land. f_equal.
  apply Z.bits_inj'. intros n Hn.
  rewrite Z.land_spec, !mask_of_prefix_bits by lia.
  destruct (Z.leb_spec (32 - q) n), (Z.leb_spec (32 - p) n),
    (Z.ltb_spec n 32); simpl; try reflexivity; lia.
Qed.

End NetworkAlgebra.

(** ** The info functions: what is reported and what is filled *)

Section InfoDiscipline.
Variable host : byte_order.
Variable inet_pton4 : string -> option in_addr.
Variable inet_ntop4 : in_addr -> string.
Variable inet_pton6 : string -> option in6_addr.
Variable inet_ntop6 : in6_addr -> string.
Variable gethostbyaddr : sockaddr -> option string.

Local Abbreviation ipv4_info :=
  (get_ipv4_info host inet_pton4 inet_ntop4 gethostbyaddr).
Local Abbreviation ipv6_info :=
  (get_ipv6_info inet_pton6 inet_ntop6 gethostbyaddr).

Lemma ipv6_prefix_to_mask_none (q : Z) :
  ipv6_prefix_to_mask inet_ntop6 q = None <-> q = 0 \/ 128 < q.
Proof.
  unfold ipv6_prefix_to_mask.
  destruct (Z.eqb_spec q 0), (Z.ltb_spec 128 q); simpl; split;
    intros; try lia; try discriminate; auto.
Qed.

Lemma ipv6_checked_prefix (p : Z) :
  (p =? 0) || (128 <? p) = false ->
  let q := if p <? 0 then 128 else p in
  to_uint32 q = q /\ 1 <= q <= 128.
Proof.
  intros H q. apply orb_false_iff in H as [H0 H1].
  apply Z.eqb_neq in H0. apply Z.ltb_ge in H1. subst q.
  destruct (Z.ltb_spec p 0); unfold to_uint32;
    (split; [ apply Z.mod_small | ]; lia).
Qed.

(** X8.  [get_ipv4_info] returns 0 or -1, writes nothing to [stderr]
    on success or when silent, writes exactly one line on a failure that is
    not silent, and its result and record do not depend on the silent
    flag. *)
Theorem ipv4_info_diagnostics (ipStr : string) (p : Z) (bs sh : bool) :
  let o := ipv4_info ipStr p bs sh in
  (ret o = 0 \/ ret o = -1)
  /\ (ret o = 0 -> stderr o = [])
  /\ (bs = true -> stderr o = [])
  /\ (ret o = -1 -> bs = false -> exists d, stderr o = [d])
  /\ ret (ipv4_info ipStr p true sh) = ret (ipv4_info ipStr p false sh)
  /\ info (ipv4_info ipStr p true sh) = info (ipv4_info ipStr p false sh).
Proof using host inet_pton4 inet_ntop4 gethostbyaddr.
  clear inet_pton6 inet_ntop6.
  unfold get_ipv4_info, report. cbv zeta.
  destruct (inet_pton4 _) as [ip |]; [ | destruct bs; simpl; intuition eauto;
                                         discriminate ].
  destruct (32 <? _); [ destruct bs; simpl; intuition eauto; discriminate | ].
  destruct sh; [ | simpl; intuition eauto; discriminate ].
  cbn [hostname set_hostname]. unfold get_hostname.
  destruct (gethostbyaddr (AF_INET ip)); destruct bs; simpl;
    intuition eauto; discriminate.
Qed.

(** X9.  The same discipline for [get_ipv6_info]. *)
Theorem ipv6_info_diagnostics (ipStr : string) (p : Z) (bs sh : bool) :
  let o := ipv6_info ipStr p bs sh in
  (ret o = 0 \/ ret o = -1)
  /\ (ret o = 0 -> stderr o = [])
  /\ (bs = true -> stderr o = [])
  /\ (ret o = -1 -> bs = false -> exists d, stderr o = [d])
  /\ ret (ipv6_info ipStr p true sh) = ret (ipv6_info ipStr p false sh)
  /\ info (ipv6_info ipStr p true sh) = info (ipv6_info ipStr p false sh).
Proof using inet_pton6 inet_ntop6 gethostbyaddr.
  clear host inet_pton4 inet_ntop4.
  unfold get_ipv6_info, report. cbv zeta.
  destruct (inet_pton6 _) as [ip6 |]; [ | destruct bs; simpl; intuition eauto;
                                          discriminate ].
  destruct ((p =? 0) || (128 <? p));
    [ destruct bs; simpl; intuition eauto; discriminate | ].
  destruct (ipv6_prefix_to_mask _ _) as [[text mask] |];
    [ | destruct bs; simpl; intuition eauto; discriminate ].
  destruct sh; [ | simpl; intuition eauto; discriminate ].
  cbn [hostname set_hostname]. unfold get_hostname.
  destruct (gethostbyaddr (AF_INET6 ip6)); destruct bs; simpl;
    intuition eauto; discriminate.
Qed.

(** X10.  When [get_ipv4_info] fails the record is still all zero,
    unless the failure is the hostname lookup: then every other field is
    filled as on success. *)
Theorem ipv4_info_failure_leaves_zero (ipStr : string) (p : Z)
    (bs sh : bool) :
  let o := ipv4_info ipStr p bs sh in
  ret o = -1 ->
  info o = info_zero
  \/ (sh = true /\ hostname (info o) = None
      /\ exists ip, inet_pton4 (if 0 <=? p
                                then cidr_pad (cidr_scan 3 ipStr) ipStr
                                else ipStr) = Some ip
                    /\ gethostbyaddr (AF_INET ip) = None
                    /\ info o = info (ipv4_info ipStr p bs false)).
Proof.
  unfold get_ipv4_info. cbv zeta.
  destruct (inet_pton4 _) as [ip |]; [ | left; reflexivity ].
  destruct (32 <? _); [ left; reflexivity | ].
  destruct sh; [ | simpl; discriminate ].
  cbn [hostname set_hostname]. unfold get_hostname.
  destruct (gethostbyaddr (AF_INET ip)) eqn:E; [ simpl; discriminate | ].
  intros _. right. cbn [info hostname set_hostname].
  split; [ reflexivity | ]. split; [ reflexivity | ].
  exists ip. split; [ reflexivity | ]. split; [ exact E | ].
  destruct (_ <? 32); reflexivity.
Qed.

(** X11.  When [get_ipv6_info] fails, the record is all zero (address
    not read), or holds only the expanded address (prefix 0 or above 128),
    or is filled as on success but for the hostname (lookup failed). *)
Theorem ipv6_info_failure_fields (ipStr : string) (p : Z) (bs sh : bool) :
  let o := ipv6_info ipStr p bs sh in
  ret o = -1 ->
  (inet_pton6 ipStr = None /\ info o = info_zero)
  \/ (exists ip6, inet_pton6 ipStr = Some ip6
        /\ (p = 0 \/ 128 < p)
        /\ info o = set_expanded_ip (Some (expand_ipv6 ip6)) info_zero)
  \/ (sh = true /\ hostname (info o) = None
      /\ exists ip6, inet_pton6 ipStr = Some ip6
           /\ gethostbyaddr (AF_INET6 ip6) = None
           /\ info o = info (ipv6_info ipStr p bs false)).
Proof.
  unfold get_ipv6_info. cbv zeta.
  destruct (inet_pton6 _) as [ip6 |]; [ | left; split; reflexivity ].
  destruct ((p =? 0) || (128 <? p)) eqn:Ep.
  { intros _. right. left. exists ip6. split; [ reflexivity | ].
    split; [ | reflexivity ].
    apply orb_true_iff in Ep as [E | E];
      [ apply Z.eqb_eq in E | apply Z.ltb_lt in E ]; lia. }
  destruct (ipv6_checked_prefix p Ep) as [Eq Hq]. rewrite Eq.
  destruct (ipv6_prefix_to_mask _ _) as [[text mask] |] eqn:Em;
    [ | apply ipv6_prefix_to_mask_none in Em; lia ].
  destruct sh; [ | simpl; discriminate ].
  cbn [hostname set_hostname]. unfold get_hostname.
  destruct (gethostbyaddr (AF_INET6 ip6)) eqn:E; [ simpl; discriminate | ].
  intros _. right. right. cbn [info hostname set_hostname].
  split; [ reflexivity | ]. split; [ reflexivity | ].
  exists ip6. split; [ reflexivity | ]. split; [ exact E | ].
  destruct (_ <? 128); reflexivity.
Qed.

(** X12.  [get_ipv4_info] never sets the expanded address and network,
    and [get_ipv6_info] never sets a broadcast address. *)
Theorem family_fields_never_set (ipStr : string) (p : Z) (bs sh : bool) :
  expanded_ip (info (ipv4_info ipStr p bs sh)) = None
  /\ expanded_network (info (ipv4_info ipStr p bs sh)) = None
  /\ broadcast (info (ipv6_info ipStr p bs sh)) = None.
Proof.
  split; [ | split ].
  - unfold get_ipv4_info. cbv zeta.
    destruct (inet_pton4 _); [ | reflexivity ].
    destruct (32 <? _); [ reflexivity | ].
    destruct (_ <? 32), sh; cbn [hostname set_hostname];
      try destruct (get_hostname _ _); reflexivity.
  - unfold get_ipv4_info. cbv zeta.
    destruct (inet_pton4 _); [ | reflexivity ].
    destruct (32 <? _); [ reflexivity | ].
    destruct (_ <? 32), sh; cbn [hostname set_hostname];
      try destruct (get_hostname _ _); reflexivity.
  - unfold get_ipv6_info. cbv zeta.
    destruct (inet_pton6 _); [ | reflexivity ].
    destruct (_ || _); [ reflexivity | ].
    destruct (ipv6_prefix_to_mask _ _) as [[text mask] |]; [ | reflexivity ].
    destruct (_ <? 128), sh; cbn [hostname set_hostname];
      try destruct (get_hostname _ _); reflexivity.
Qed.

(** X13.  On success [get_ipv4_info] has filled netmask, network,
    broadcast, type, host-min and host-max, the prefix is in 0..32 (the
    given one if it was not negative), and the hostname is set exactly when
    it was asked for. *)
Theorem ipv4_info_success_complete (ipStr : string) (p : Z) (bs sh : bool) :
  let o := ipv4_info ipStr p bs sh in
  ret o = 0 ->
  0 <= prefix (info o) <= 32
  /\ (0 <= p -> prefix (info o) = p)
  /\ is_Some (netmask (info o)) /\ is_Some (network (info o))
  /\ is_Some (broadcast (info o)) /\ is_Some (type (info o))
  /\ is_Some (hostmin (info o)) /\ is_Some (hostmax (info o))
  /\ (is_Some (hostname (info o)) <-> sh = true).
Proof.
  unfold get_ipv4_info. cbv zeta.
  destruct (inet_pton4 _) as [ip |]; [ | simpl; discriminate ].
  destruct (Z.ltb_spec 32 (if 0 <=? p then p else 32)) as [H32 | H32];
    [ simpl; discriminate | ].
  assert (Hp : 0 <= (if 0 <=? p then p else 32) <= 32
               /\ (0 <= p -> (if 0 <=? p then p else 32) = p)).
  { destruct (Z.leb_spec 0 p); lia. }
  destruct sh.
  - cbn [hostname set_hostname]. unfold get_hostname.
    destruct (gethostbyaddr (AF_INET ip)); [ | simpl; discriminate ].
    intros _. destruct (_ <? 32); simpl;
      (split; [ apply Hp | split; [ apply Hp | ] ]);
      repeat split; eauto; intros [? ?]; discriminate.
  - intros _. destruct (_ <? 32); simpl;
      (split; [ apply Hp | split; [ apply Hp | ] ]);
      repeat split; eauto; try (intros [? ?]; discriminate);
      intros; discriminate.
Qed.

(** X14.  On success [get_ipv6_info] has filled both expanded forms,
    netmask, network, type, host-min and host-max, the prefix is in
    1..128, and the hostname is set exactly when it was asked for. *)
Theorem ipv6_info_success_complete (ipStr : string) (p : Z) (bs sh : bool) :
  let o := ipv6_info ipStr p bs sh in
  ret o = 0 ->
  1 <= prefix (info o) <= 128
  /\ (0 <= p -> prefix (info o) = p)
  /\ is_Some (expanded_ip (info o))
  /\ is_Some (expanded_network (info o))
  /\ is_Some (netmask (info o)) /\ is_Some (network (info o))
  /\ is_Some (type (info o))
  /\ is_Some (hostmin (info o)) /\ is_Some (hostmax (info o))
  /\ (is_Some (hostname (info o)) <-> sh = true).
Proof.
  unfold get_ipv6_info. cbv zeta.
  destruct (inet_pton6 _) as [ip6 |]; [ | simpl; discriminate ].
  destruct ((p =? 0) || (128 <? p)) eqn:Ep; [ simpl; discriminate | ].
  destruct (ipv6_checked_prefix p Ep) as [Eq Hq]. rewrite Eq.
  assert (Hp : 0 <= p -> (if p <? 0 then 128 else p) = p)
    by (destruct (Z.ltb_spec p 0); lia).
  destruct (ipv6_prefix_to_mask _ _) as [[text mask] |];
    [ | simpl; discriminate ].
  destruct sh.
  - cbn [hostname set_hostname]. unfold get_hostname.
    destruct (gethostbyaddr (AF_INET6 ip6)); [ | simpl; discriminate ].
    intros _. destruct (_ <? 128); simpl;
      (split; [ exact Hq | split; [ exact Hp | ] ]);
      repeat split; eauto; intros [? ?]; discriminate.
  - intros _. destruct (_ <? 128); simpl;
      (split; [ exact Hq | split; [ exact Hp | ] ]);
      repeat split; eauto; try (intros [? ?]; discriminate);
      intros; discriminate.
Qed.

(** X15.  The CIDR shorthand code only appends [.0] components: the
    result has four components, or as many as the string had if it had
    more, and a string of four or more components is left as it is. *)
Theorem cidr_padding_extends (ipStr : string) :
  let padded := cidr_pad (cidr_scan 3 ipStr) ipStr in
  padded
  = (ipStr ++ zero_components (4 - length (dotted_components ipStr)))%string
  /\ length (dotted_components padded)
     = Nat.max 4 (length (dotted_components ipStr))
  /\ ((4 <= length (dotted_components ipStr))%nat -> padded = ipStr).
Proof.
  intros padded. subst padded.
  pose proof (dotted_components_nonempty ipStr) as Hne.
  assert (H1 : (1 <= length (dotted_components ipStr))%nat).
  { destruct (dotted_components ipStr); [ contradiction | simpl; lia ]. }
  rewrite cidr_pad_append, cidr_scan_components.
  replace (3 - (length (dotted_components ipStr) - 1))%nat
    with (4 - length (dotted_components ipStr))%nat by lia.
  split; [ reflexivity | ]. split.
  - rewrite components_append_zero. lia.
  - intros H4. replace (4 - length (dotted_components ipStr))%nat
      with 0%nat by lia.
    change (zero_components 0) with EmptyString.
    clear. induction ipStr as [| a s IH]; simpl; [ | rewrite IH ];
      reflexivity.
Qed.


End InfoDiscipline.

(** ** The IPv4 classifier *)

(** A property of bytes holds when it holds of the 256 values. *)
Lemma byte_cases (P : Z -> Prop) :
  Forall P (map Z.of_nat (seq 0 256)) -> forall b, byte_range b -> P b.
Proof.
  intros H b Hb. rewrite Forall_forall in H. apply H.
  apply list_elem_of_In, in_map_iff. exists (Z.to_nat b).
  split; [ apply Z2Nat.id, Hb | ]. apply in_seq. unfold byte_range in Hb. lia.
Qed.

Lemma byte_masks (b : Z) :
  byte_range b ->
  (Z.land b 0xc0 =? 64) = (64 <=? b) && (b <=? 127)
  /\ (Z.land b 0xf0 =? 16) = (16 <=? b) && (b <=? 31)
  /\ (Z.land b 0xfe =? 18) = (18 <=? b) && (b <=? 19)
  /\ (Z.land b 0xf0 =? 240) = (240 <=? b).
Proof.
  revert b. apply byte_cases. apply (bool_decide_eq_true_1 _).
  vm_compute. reflexivity.
Qed.

Lemma quad_range (b1 b2 b3 b4 : Z) :
  byte_range b1 -> byte_range b2 -> byte_range b3 -> byte_range b4 ->
  0 <= quad b1 b2 b3 b4 < 2 ^ 32.
Proof. unfold byte_range, quad. lia. Qed.

Lemma quad_bytes (b1 b2 b3 b4 : Z) :
  byte_range b1 -> byte_range b2 -> byte_range b3 -> byte_range b4 ->
  let v := quad b1 b2 b3 b4 in
  Z.land (Z.shiftr v 24) 0xff = b1
  /\ Z.land (Z.shiftr v 16) 0xff = b2
  /\ Z.land (Z.shiftr v 8) 0xff = b3
  /\ Z.land v 0xff = b4.
Proof.
  unfold byte_range, quad. intros H1 H2 H3 H4. cbv zeta.
  change 0xff with (Z.ones 8).
  rewrite !Z.land_ones, !Z.shiftr_div_pow2 by lia.
  change (2 ^ 24) with 16777216. change (2 ^ 16) with 65536.
  change (2 ^ 8) with 256.
  repeat split; Z.div_mod_to_equations; lia.
Qed.

Section Ipv4Labels.
Variable host : byte_order.

(** The tests of [ipv4_net_to_type] on the address [b1.b2.b3.b4]. *)
Lemma ipv4_net_to_type_dotted (b1 b2 b3 b4 : Z) :
  byte_range b1 -> byte_range b2 -> byte_range b3 -> byte_range b4 ->
  ipv4_net_to_type host (dotted host b1 b2 b3 b4) =
  (if b1 =? 0 then "This host on this network"%string
   else if b1 =? 10 then "Private Use"%string
   else if (b1 =? 100) && ((64 <=? b2) && (b2 <=? 127))
     then "Shared Address Space"%string
   else if b1 =? 127 then "Loopback"%string
   else if (b1 =? 169) && (b2 =? 254) then "Link Local"%string
   else if (b1 =? 172) && ((16 <=? b2) && (b2 <=? 31)) then "Private Use"%string
   else if (b1 =? 192) && (b2 =? 0) && (b3 =? 0)
     then "IETF Protocol Assignments"%string
   else if (b1 =? 192) && (b2 =? 2) && (b3 =? 0)
     then "Documentation (TEST-NET-1)"%string
   else if (b1 =? 192) && (b2 =? 51) && (b3 =? 100)
     then "Documentation (TEST-NET-2)"%string
   else if (b1 =? 203) && (b2 =? 0) && (b3 =? 113)
     then "Documentation (TEST-NET-3)"%string
   else if (b1 =? 192) && (b2 =? 88) && (b3 =? 99)
     then "6 to 4 Relay Anycast (Deprecated)"%string
   else if (b1 =? 192) && (b2 =? 52) && (b3 =? 193) then "AMT"%string
   else if (b1 =? 192) && (b2 =? 168) then "Private Use"%string
   else if (b1 =? 255) && (b2 =? 255) && (b3 =? 255) && (b4 =? 255)
     then "Limited Broadcast"%string
   else if (b1 =? 192) && ((18 <=? b2) && (b2 <=? 19)) then "Private Use"%string
   else if (224 <=? b1) && (b1 <=? 239) then "Multicast"%string
   else if 240 <=? b1 then "Reserved"%string
   else "Internet or Reserved for Future use"%string).
Proof.
  intros H1 H2 H3 H4. unfold ipv4_net_to_type, dotted. cbv zeta.
  cbn [s_addr]. rewrite ntohl_htonl by (apply quad_range; assumption).
  destruct (quad_bytes b1 b2 b3 b4 H1 H2 H3 H4) as (E1 & E2 & E3 & E4).
  rewrite E1, E2, E3, E4.
  destruct (byte_masks b2 H2) as (M1 & M2 & M3 & _).
  destruct (byte_masks b1 H1) as (_ & _ & _ & M4).
  rewrite M1, M2, M3, M4. reflexivity.
Qed.

(** X17.  The IPv4 addresses labelled "Private Use" are exactly 10/8,
    172.16/12, 192.168/16 and 192.18/15, on either byte order. *)
Theorem private_use_addresses (b1 b2 b3 b4 : Z) :
  byte_range b1 -> byte_range b2 -> byte_range b3 -> byte_range b4 ->
  ipv4_net_to_type host (dotted host b1 b2 b3 b4) = "Private Use"%string
  <-> b1 = 10 \/ (b1 = 172 /\ 16 <= b2 <= 31) \/ (b1 = 192 /\ b2 = 168)
      \/ (b1 = 192 /\ 18 <= b2 <= 19).
Proof.
  intros H1 H2 H3 H4. rewrite ipv4_net_to_type_dotted by assumption.
  unfold byte_range in *. decide_label.
Qed.

(** X18.  The three documentation labels are given exactly to 192.2.0/24,
    192.51.100/24 and 203.0.113/24. *)
Theorem documentation_addresses (b1 b2 b3 b4 : Z) :
  byte_range b1 -> byte_range b2 -> byte_range b3 -> byte_range b4 ->
  let label := ipv4_net_to_type host (dotted host b1 b2 b3 b4) in
  (label = "Documentation (TEST-NET-1)"%string
   <-> b1 = 192 /\ b2 = 2 /\ b3 = 0)
  /\ (label = "Documentation (TEST-NET-2)"%string
      <-> b1 = 192 /\ b2 = 51 /\ b3 = 100)
  /\ (label = "Documentation (TEST-NET-3)"%string
      <-> b1 = 203 /\ b2 = 0 /\ b3 = 113).
Proof.
  intros H1 H2 H3 H4 label. subst label.
  rewrite ipv4_net_to_type_dotted by assumption.
  unfold byte_range in *. decide_label.
Qed.

(** X19.  "Multicast" is exactly 224/4; of 240/4 the single address
    255.255.255.255 is "Limited Broadcast" and all others "Reserved". *)
Theorem top_of_address_space (b1 b2 b3 b4 : Z) :
  byte_range b1 -> byte_range b2 -> byte_range b3 -> byte_range b4 ->
  let label := ipv4_net_to_type host (dotted host b1 b2 b3 b4) in
  (label = "Multicast"%string <-> 224 <= b1 <= 239)
  /\ (label = "Limited Broadcast"%string
      <-> b1 = 255 /\ b2 = 255 /\ b3 = 255 /\ b4 = 255)
  /\ (label = "Reserved"%string
      <-> 240 <= b1 /\ ~ (b1 = 255 /\ b2 = 255 /\ b3 = 255 /\ b4 = 255)).
Proof.
  intros H1 H2 H3 H4 label. subst label.
  rewrite ipv4_net_to_type_dotted by assumption.
  unfold byte_range in *. decide_label.
Qed.

(** X20.  "This host on this network" is exactly 0/8, "Loopback"
    127/8, "Link Local" 169.254/16 and "Shared Address Space"
    100.64/10. *)
Theorem special_blocks (b1 b2 b3 b4 : Z) :
  byte_range b1 -> byte_range b2 -> byte_range b3 -> byte_range b4 ->
  let label := ipv4_net_to_type host (dotted host b1 b2 b3 b4) in
  (label = "This host on this network"%string <-> b1 = 0)
  /\ (label = "Loopback"%string <-> b1 = 127)
  /\ (label = "Link Local"%string <-> b1 = 169 /\ b2 = 254)
  /\ (label = "Shared Address Space"%string
      <-> b1 = 100 /\ 64 <= b2 <= 127).
Proof.
  intros H1 H2 H3 H4 label. subst label.
  rewrite ipv4_net_to_type_dotted by assumption.
  unfold byte_range in *. decide_label.
Qed.

End Ipv4Labels.

(** ** The IPv6 classifier *)

Lemma byte_pair_cases (Q : Z -> Z -> Prop) :
  Forall (fun x => Forall (Q x) (map Z.of_nat (seq 0 256)))
         (map Z.of_nat (seq 0 256)) ->
  forall x y, byte_range x -> byte_range y -> Q x y.
Proof.
  intros H x y Hx Hy.
  apply (byte_cases (Q x)); [ | exact Hy ].
  revert x Hx. apply byte_cases. exact H.
Qed.

(** The tests of [ipv6_net_to_type] on the first 16-bit word, by its two
    bytes. *)
Lemma word1_tests (x y : Z) :
  byte_range x -> byte_range y ->
  let word1 := to_uint16 (Z.lor (Z.shiftl x 8) y) in
  word1 = x * 256 + y
  /\ (Z.land word1 0xe000 =? 0x2000) = (32 <=? x) && (x <=? 63)
  /\ (Z.land word1 0xffc0 =? 0xfe80)
     = (x =? 254) && ((128 <=? y) && (y <=? 191))
  /\ (Z.land word1 0xfffe =? 0x2001) = false
  /\ (Z.land word1 0xfffe =? 0x2002) = (x =? 32) && ((2 <=? y) && (y <=? 3))
  /\ (Z.land x 0xfe =? 0xfc) = (252 <=? x) && (x <=? 253)
  /\ (Z.land x 0xff =? 0xff) = (x =? 255).
Proof.
  revert x y. apply byte_pair_cases. apply (bool_decide_eq_true_1 _).
  vm_compute. reflexivity.
Qed.

Lemma in6_wf_bytes (net : in6_addr) :
  in6_wf net = true ->
  exists b0 b1 rest,
    s6_addr net = b0 :: b1 :: rest /\ length rest = 14%nat
    /\ byte_range b0 /\ byte_range b1.
Proof.
  intros H. apply in6_wf_spec in H as [Hl Hb]. destruct net as [l]. simpl in *.
  destruct l as [| b0 [| b1 rest]]; try discriminate.
  exists b0, b1, rest. inversion Hb as [| ? ? H0 Hb']; subst.
  inversion Hb' as [| ? ? H1 _]; subst. simpl in Hl.
  repeat split; [ lia | apply H0 | apply H0 | apply H1 | apply H1 ].
Qed.

(** X22.  For a well-formed IPv6 address, "Global Unicast" is exactly
    2000::/3, "Unique Local Unicast" fc00::/7, "Link-Scoped Unicast"
    fe80::/10 and "Multicast" ff00::/8. *)
Theorem ipv6_labels_by_first_bytes (net : in6_addr) :
  in6_wf net = true ->
  let b0 := at_index (s6_addr net) 0 in
  let b1 := at_index (s6_addr net) 1 in
  let label := ipv6_net_to_type net in
  (label = "Global Unicast"%string <-> 0x20 <= b0 <= 0x3f)
  /\ (label = "Unique Local Unicast"%string <-> b0 = 0xfc \/ b0 = 0xfd)
  /\ (label = "Link-Scoped Unicast"%string
      <-> b0 = 0xfe /\ 0x80 <= b1 <= 0xbf)
  /\ (label = "Multicast"%string <-> b0 = 0xff).
Proof.
  intros Hwf.
  destruct (in6_wf_bytes net Hwf) as (b0 & b1 & rest & El & Hl & H0 & H1).
  unfold ipv6_net_to_type. rewrite El. cbv zeta.
  change (at_index (b0 :: b1 :: rest) 0) with b0.
  change (at_index (b0 :: b1 :: rest) 1) with b1.
  destruct (word1_tests b0 b1 H0 H1) as (_ & T1 & T2 & T3 & T4 & T5 & T6).
  cbv zeta in T1, T2, T3, T4. rewrite T1, T2, T3, T4, T5, T6.
  unfold byte_range in *.
  label_cases; memcmp_hits;
    repeat match goal with |- _ /\ _ => split end; decide_leaf.
Qed.

(** X21.  No address is labelled "6to4": the test for 2002::/15 comes
    after the test for 2000::/3, which contains it. *)
Theorem six_to_four_label_never_given (net : in6_addr) :
  ipv6_net_to_type net <> "6to4"%string.
Proof.
  unfold ipv6_net_to_type. cbv zeta.
  set (w := to_uint16 _).
  label_cases; try discriminate.
  exfalso.
  match goal with
  | G : (Z.land w 57344 =? 8192) = false,
    S : (Z.land w 65534 =? 8194) = true |- _ =>
      apply Z.eqb_neq in G; apply Z.eqb_eq in S; apply G;
      replace (Z.land w 57344) with (Z.land (Z.land w 65534) 57344)
        by (rewrite <- Z.land_assoc; reflexivity);
      rewrite S; reflexivity
  end.
Qed.

Lemma memcmp_eq_spec (a b : list Z) (n : nat) :
  (memcmp_eq a b n = true <-> take n a = take n b)
  /\ (memcmp_eq a b n = false <-> take n a <> take n b).
Proof.
  unfold memcmp_eq. split.
  - apply bool_decide_eq_true.
  - apply bool_decide_eq_false.
Qed.

(** X23.  The labels of the five [memcmp] tests: ::1 and :: alone are
    "Loopback Address" and "Unspecified Address"; the addresses whose
    first 96 bits are those of ::ffff:0:0, 64:ff9b:: and 1000:: are exactly
    the "IPv4-mapped", "IPv4-IPv6 Translat." and "Discard-Only" ones. *)
Theorem ipv6_exact_block_labels (net : in6_addr) :
  length (s6_addr net) = 16%nat ->
  let label := ipv6_net_to_type net in
  (label = "Loopback Address"%string
   <-> s6_addr net = [0; 0; 0; 0; 0; 0; 0; 0; 0; 0; 0; 0; 0; 0; 0; 1])
  /\ (label = "Unspecified Address"%string
      <-> s6_addr net = [0; 0; 0; 0; 0; 0; 0; 0; 0; 0; 0; 0; 0; 0; 0; 0])
  /\ (label = "IPv4-mapped Address"%string
      <-> take 12 (s6_addr net) = [0; 0; 0; 0; 0; 0; 0; 0; 0; 0; 0xff; 0xff])
  /\ (label = "IPv4-IPv6 Translat."%string
      <-> take 12 (s6_addr net)
          = [0; 0x64; 0xff; 0x9b; 0; 0; 0; 0; 0; 0; 0; 0])
  /\ (label = "Discard-Only Address Block"%string
      <-> take 12 (s6_addr net) = [0x10; 0; 0; 0; 0; 0; 0; 0; 0; 0; 0; 0]).
Proof.
  destruct net as [l]. cbn [s6_addr]. intros Hl.
  unfold ipv6_net_to_type. cbv zeta. cbn [s6_addr].
  set (w1 := to_uint16 _). set (w2 := to_uint16 _).
  label_cases;
    repeat match goal with
    | E : memcmp_eq _ _ _ = true |- _ =>
        apply (proj1 (memcmp_eq_spec _ _ _)) in E;
        rewrite ?take_ge in E by (simpl; lia)
    | E : memcmp_eq _ _ _ = false |- _ =>
        apply (proj2 (memcmp_eq_spec _ _ _)) in E;
        rewrite ?take_ge in E by (simpl; lia)
    end;
    repeat match goal with |- _ /\ _ => split end;
    (split; intros Hgoal;
     first [ assumption | reflexivity | discriminate Hgoal
           | exfalso; congruence
           | exfalso; subst; simpl in *; congruence ]).
Qed.

(** ** [expand_ipv6] *)

Lemma nibble_cases (P : Z -> Prop) :
  Forall P (map Z.of_nat (seq 0 16)) -> forall d, 0 <= d < 16 -> P d.
Proof.
  intros H d Hd. rewrite Forall_forall in H. apply H.
  apply list_elem_of_In, in_map_iff. exists (Z.to_nat d).
  split; [ apply Z2Nat.id; lia | ]. apply in_seq. lia.
Qed.

Lemma hex_digit_lower (d : Z) :
  0 <= d < 16 -> is_lower_hex (hex_digit d) = true.
Proof.
  revert d. apply nibble_cases. apply (bool_decide_eq_true_1 _).
  vm_compute. reflexivity.
Qed.

Lemma hex_digit_inj (d e : Z) :
  0 <= d < 16 -> 0 <= e < 16 -> hex_digit d = hex_digit e -> d = e.
Proof.
  intros Hd He H.
  assert (C : forallb (fun x =>
                forallb (fun y => implb (Ascii.eqb (hex_digit x) (hex_digit y))
                                        (x =? y))
                        (map Z.of_nat (seq 0 16)))
              (map Z.of_nat (seq 0 16)) = true)
    by (vm_compute; reflexivity).
  assert (In16 : forall z, 0 <= z < 16 -> In z (map Z.of_nat (seq 0 16))).
  { intros z Hz. apply in_map_iff. exists (Z.to_nat z).
    split; [ apply Z2Nat.id; lia | apply in_seq; lia ]. }
  rewrite forallb_forall in C. specialize (C d (In16 d Hd)).
  rewrite forallb_forall in C. specialize (C e (In16 e He)).
  rewrite H, Ascii.eqb_refl in C. apply Z.eqb_eq, C.
Qed.

Lemma hex2_inj (x y : Z) :
  byte_range x -> byte_range y -> hex2 x = hex2 y -> x = y.
Proof.
  unfold byte_range, hex2. intros Hx Hy H. injection H as Hh Hl.
  apply hex_digit_inj in Hh;
    [ | split; [ apply Z.div_pos | apply Z.div_lt_upper_bound ]; lia .. ].
  apply hex_digit_inj in Hl; [ | apply Z.mod_pos_bound; lia .. ].
  rewrite (Z.div_mod x 16), (Z.div_mod y 16) by lia. congruence.
Qed.

Lemma nibbles_of_byte (x : Z) :
  byte_range x -> 0 <= x / 16 < 16 /\ 0 <= x mod 16 < 16.
Proof.
  unfold byte_range. intros Hx. split.
  - split; [ apply Z.div_pos | apply Z.div_lt_upper_bound ]; lia.
  - apply Z.mod_pos_bound. lia.
Qed.

Lemma group_format (x y : Z) :
  byte_range x -> byte_range y ->
  String.length (hex2 x ++ hex2 y) = 4%nat
  /\ Forall (fun c => is_lower_hex c = true) (chars (hex2 x ++ hex2 y)).
Proof.
  intros Hx Hy. split; [ reflexivity | ].
  destruct (nibbles_of_byte x Hx), (nibbles_of_byte y Hy).
  unfold hex2. cbn [chars String.append].
  repeat (apply Forall_cons; split; [ apply hex_digit_lower; assumption | ]).
  constructor.
Qed.

Ltac explode_bytes l Hl Hb :=
  do 17 (destruct l as [| ? l]; try discriminate Hl);
  repeat match type of Hb with
  | Forall _ (_ :: _) =>
      let H := fresh "Hbyte" in apply Forall_cons in Hb as [H Hb]
  end; clear Hl Hb.

(** [expand_ipv6] on 16 bytes, group by group. *)
Lemma expand_ipv6_groups (l : list Z) :
  length l = 16%nat ->
  expand_ipv6 {| s6_addr := l |}
  = String.concat ":"
      (map (fun i => (hex2 (at_index l (2 * i))
                      ++ hex2 (at_index l (2 * i + 1)))%string)
           (seq 0 8)).
Proof.
  intros Hl. do 17 (destruct l as [| ? l]; try discriminate Hl).
  reflexivity.
Qed.

(** X24.  [expand_ipv6] writes eight groups of four digits 0-9a-f
    joined by colons, 39 characters in all. *)
Theorem expand_ipv6_format (ip6 : in6_addr) :
  in6_wf ip6 = true ->
  exists groups : list string,
    expand_ipv6 ip6 = String.concat ":" groups
    /\ length groups = 8%nat
    /\ Forall (fun g => String.length g = 4%nat
                        /\ Forall (fun c => is_lower_hex c = true) (chars g))
              groups
    /\ String.length (expand_ipv6 ip6) = 39%nat.
Proof.
  intros Hwf. apply in6_wf_spec in Hwf as [Hl Hb].
  destruct ip6 as [l]. cbn [s6_addr] in *.
  rewrite expand_ipv6_groups by exact Hl.
  eexists. split; [ reflexivity | ].
  explode_bytes l Hl Hb.
  split; [ reflexivity | ]. split; [ | reflexivity ].
  cbn [map seq at_index lookup list_lookup default Nat.mul Nat.add].
  repeat (apply Forall_cons; split; [ apply group_format; assumption | ]).
  constructor.
Qed.

(** X25.  [expand_ipv6] gives different text for different addresses. *)
Theorem expand_ipv6_injective (a b : in6_addr) :
  in6_wf a = true -> in6_wf b = true ->
  expand_ipv6 a = expand_ipv6 b -> a = b.
Proof.
  intros Ha Hb H.
  apply in6_wf_spec in Ha as [Hla Hba]. apply in6_wf_spec in Hb as [Hlb Hbb].
  destruct a as [la], b as [lb]. cbn [s6_addr] in *.
  explode_bytes la Hla Hba. explode_bytes lb Hlb Hbb.
  f_equal. cbv [expand_ipv6 foldl seq s6_addr] in H.
  cbn [at_index lookup list_lookup default Nat.modulo Nat.eqb negb andb
       String.append] in H.
  simpl in H.
  repeat match type of H with
  | String _ _ = String _ _ => injection H as ? H
  end.
  repeat match goal with
  | Hh : hex_digit (?x / 16) = hex_digit (?y / 16),
    Hl : hex_digit (?x mod 16) = hex_digit (?y mod 16) |- _ =>
      assert (x = y)
        by (apply hex2_inj; [ assumption | assumption | ];
            unfold hex2; rewrite Hh, Hl; reflexivity);
      clear Hh Hl; subst x
  end.
  reflexivity.
Qed.

(** ** Byte sequences as numbers *)

Lemma append_byte_bits (x a n : Z) :
  byte_range a -> 0 <= n ->
  Z.testbit (x * 256 + a) n
  = if n <? 8 then Z.testbit a n else Z.testbit x (n - 8).
Proof.
  intros Ha Hn.
  assert (E : x * 256 + a = Z.lor (Z.shiftl x 8) a).
  { rewrite Z.shiftl_mul_pow2 by lia. change (2 ^ 8) with 256.
    symmetry. apply Z.or_to_plus. apply Z.bits_inj'. intros k Hk.
    rewrite Z.land_spec, Z.bits_0. destruct (Z.ltb_spec k 8).
    - rewrite Z.mul_pow2_bits_low with (n := 8) by lia. reflexivity.
    - rewrite (byte_high_bits a) by (auto; lia). apply andb_false_r. }
  rewrite E, Z.lor_spec. destruct (Z.ltb_spec n 8).
  - rewrite Z.shiftl_spec_low by lia. reflexivity.
  - rewrite Z.shiftl_spec, (byte_high_bits a) by (auto; lia).
    apply orb_false_r.
Qed.

Lemma fold_bytes_land (a m : list Z) (x y : Z) :
  Forall byte_range a -> Forall byte_range m ->
  fold_left (fun acc b => acc * 256 + b) (zip_with Z.land a m) (Z.land x y)
  = Z.land (fold_left (fun acc b => acc * 256 + b) (take (length m) a) x)
           (fold_left (fun acc b => acc * 256 + b) (take (length a) m) y).
Proof.
  intros Ha. revert m x y. induction Ha as [| u a Hu Ha IH]; intros m x y Hm.
  - destruct m; reflexivity.
  - destruct Hm as [| v m Hv Hm]; [ reflexivity | ].
    cbn [zip_with length take firstn fold_left].
    rewrite <- IH by assumption. f_equal.
    apply Z.bits_inj'. intros n Hn.
    rewrite Z.land_spec, !append_byte_bits by auto using land_byte_range.
    destruct (n <? 8); rewrite Z.land_spec; reflexivity.
Qed.

Lemma fold_bytes_lor (a m : list Z) (x y : Z) :
  Forall byte_range a -> Forall byte_range m ->
  fold_left (fun acc b => acc * 256 + b) (zip_with Z.lor a m) (Z.lor x y)
  = Z.lor (fold_left (fun acc b => acc * 256 + b) (take (length m) a) x)
          (fold_left (fun acc b => acc * 256 + b) (take (length a) m) y).
Proof.
  intros Ha. revert m x y. induction Ha as [| u a Hu Ha IH]; intros m x y Hm.
  - destruct m; reflexivity.
  - destruct Hm as [| v m Hv Hm]; [ reflexivity | ].
    cbn [zip_with length take firstn fold_left].
    assert (Huv : byte_range (Z.lor u v)).
    { unfold byte_range in *. split; [ apply Z.lor_nonneg; lia | ].
      assert (E : Z.lor u v = Z.lor u v mod 2 ^ 8).
      { apply Z.bits_inj'. intros n Hn. destruct (Z.ltb_spec n 8).
        - rewrite Z.mod_pow2_bits_low by lia. reflexivity.
        - rewrite Z.mod_pow2_bits_high, Z.lor_spec by lia.
          rewrite (byte_high_bits u), (byte_high_bits v)
            by (unfold byte_range; auto; lia). reflexivity. }
      rewrite E. apply Z.mod_pos_bound. lia. }
    rewrite <- IH by assumption. f_equal.
    apply Z.bits_inj'. intros n Hn.
    rewrite Z.lor_spec, !append_byte_bits by auto.
    destruct (n <? 8); rewrite Z.lor_spec; reflexivity.
Qed.

Lemma fold_bytes_acc (l : list Z) (x : Z) :
  fold_left (fun acc b => acc * 256 + b) l x
  = x * 256 ^ Z.of_nat (length l) + be_value l.
Proof.
  unfold be_value. revert x. induction l as [| b l IH]; intros x.
  - simpl. lia.
  - cbn [fold_left length]. rewrite IH, (IH (0 * 256 + b)).
    rewrite Nat2Z.inj_succ, Z.pow_succ_r by lia. lia.
Qed.

Lemma be_value_range (l : list Z) :
  Forall byte_range l -> 0 <= be_value l < 256 ^ Z.of_nat (length l).
Proof.
  induction 1 as [| b l Hb Hl IH].
  - unfold be_value. simpl. lia.
  - unfold be_value. cbn [fold_left length].
    rewrite fold_bytes_acc, Nat2Z.inj_succ, Z.pow_succ_r by lia.
    unfold byte_range in Hb.
    assert (0 < 256 ^ Z.of_nat (length l)) by (apply Z.pow_pos_nonneg; lia).
    nia.
Qed.

Lemma be_value_complement (l : list Z) :
  be_value (map (fun y => 255 - y) l)
  = 256 ^ Z.of_nat (length l) - 1 - be_value l.
Proof.
  induction l as [| b l IH].
  - reflexivity.
  - unfold be_value in *. cbn [map fold_left length].
    rewrite !fold_bytes_acc, length_map. unfold be_value. rewrite IH.
    rewrite Nat2Z.inj_succ, Z.pow_succ_r by lia. lia.
Qed.

Lemma be_value_land (a m : list Z) :
  Forall byte_range a -> Forall byte_range m -> length a = length m ->
  be_value (zip_with Z.land a m) = Z.land (be_value a) (be_value m).
Proof.
  intros Ha Hm Hl. unfold be_value.
  change 0 with (Z.land 0 0) at 1. rewrite fold_bytes_land by assumption.
  rewrite <- Hl at 1. rewrite Hl at 2. rewrite !firstn_all. reflexivity.
Qed.

Lemma be_value_lor (a m : list Z) :
  Forall byte_range a -> Forall byte_range m -> length a = length m ->
  be_value (zip_with Z.lor a m) = Z.lor (be_value a) (be_value m).
Proof.
  intros Ha Hm Hl. unfold be_value.
  change 0 with (Z.lor 0 0) at 1. rewrite fold_bytes_lor by assumption.
  rewrite <- Hl at 1. rewrite Hl at 2. rewrite !firstn_all. reflexivity.
Qed.

(** The netmask of a prefix as a 128-bit number. *)
Lemma mask6_value (p : Z) :
  1 <= p <= 128 ->
  be_value (map (mask6_byte p) (seq 0 16)) = 2 ^ 128 - 2 ^ (128 - p).
Proof.
  intros Hp.
  assert (H : Forall (fun n : nat =>
                        be_value (map (mask6_byte (Z.of_nat n)) (seq 0 16))
                        = 2 ^ 128 - 2 ^ (128 - Z.of_nat n))
                     (seq 1 128)).
  { apply (bool_decide_eq_true_1 _). vm_compute. reflexivity. }
  rewrite Forall_forall in H. rewrite <- (Z2Nat.id p) by lia. apply H.
  apply list_elem_of_In, in_seq. lia.
Qed.

Lemma testbit_above (w x n : Z) :
  0 <= x < 2 ^ w -> w <= n -> Z.testbit x n = false.
Proof.
  intros Hx Hn. destruct (Z_lt_le_dec w 0).
  - rewrite Z.pow_neg_r in Hx by lia. lia.
  - rewrite <- (Z.mod_small x (2 ^ w)) by lia.
    apply Z.mod_pow2_bits_high. lia.
Qed.

(** Clearing the low [k] bits of [a], and setting them. *)
Lemma land_high_mask (w k a : Z) :
  0 <= k <= w -> 0 <= a < 2 ^ w ->
  Z.land a (2 ^ w - 2 ^ k) = a - a mod 2 ^ k.
Proof.
  intros Hk Ha.
  assert (Em : 2 ^ w - 2 ^ k = Z.shiftl (Z.ones (w - k)) k).
  { rewrite Z.shiftl_mul_pow2, Z.ones_equiv by lia.
    replace w with (w - k + k) at 1 by lia. rewrite Z.pow_add_r by lia.
    lia. }
  assert (E : Z.land a (2 ^ w - 2 ^ k) = Z.shiftl (Z.shiftr a k) k).
  { rewrite Em. apply Z.bits_inj'. intros n Hn.
    rewrite Z.land_spec. destruct (Z.ltb_spec n k).
    - rewrite !Z.shiftl_spec_low by lia. apply andb_false_r.
    - rewrite !Z.shiftl_spec, Z.shiftr_spec by lia.
      replace (n - k + k) with n by lia.
      destruct (Z.ltb_spec n w).
      + rewrite Z.ones_spec_low by lia. apply andb_true_r.
      + rewrite (testbit_above w a n) by lia. reflexivity. }
  rewrite E, Z.shiftl_mul_pow2, Z.shiftr_div_pow2 by lia.
  pose proof (Z.div_mod a (2 ^ k)).
  assert (0 < 2 ^ k) by (apply Z.pow_pos_nonneg; lia). lia.
Qed.

Lemma lor_low_ones (k a : Z) :
  0 <= k -> Z.lor (a - a mod 2 ^ k) (2 ^ k - 1) = a - a mod 2 ^ k + 2 ^ k - 1.
Proof.
  intros Hk. rewrite <- Z.add_sub_assoc. apply Z.or_to_plus.
  assert (0 < 2 ^ k) by (apply Z.pow_pos_nonneg; lia).
  replace (a - a mod 2 ^ k) with (Z.shiftl (a / 2 ^ k) k)
    by (rewrite Z.shiftl_mul_pow2 by lia;
        pose proof (Z.div_mod a (2 ^ k)); lia).
  replace (2 ^ k - 1) with (Z.ones k) by (rewrite Z.ones_equiv; lia).
  apply Z.bits_inj'. intros n Hn.
  rewrite Z.land_spec, Z.bits_0. destruct (Z.ltb_spec n k).
  - rewrite Z.shiftl_spec_low by lia. reflexivity.
  - rewrite Z.ones_spec_high by lia. apply andb_false_r.
Qed.

Section Ipv6Range.
Variable inet_pton6 : string -> option in6_addr.
Variable inet_ntop6 : in6_addr -> string.
Variable gethostbyaddr : sockaddr -> option string.

(** X26.  For IPv6 and a prefix in 1..128, with the 16 bytes read as a
    128-bit number: the mask is 2^128 - 2^(128-p), the network address is
    the address rounded down to a multiple of 2^(128-p), host-max is the
    network address plus 2^(128-p) - 1, and the address lies between
    them. *)
Theorem ipv6_range_arithmetic (ipStr : string) (p : Z) (bs sh : bool)
    (ip6 : in6_addr) :
  inet_pton6 ipStr = Some ip6 ->
  in6_wf ip6 = true ->
  1 <= p <= 128 ->
  let o := get_ipv6_info inet_pton6 inet_ntop6 gethostbyaddr ipStr p bs sh in
  exists mask net hmax : in6_addr,
    netmask (info o) = Some (inet_ntop6 mask)
    /\ network (info o) = Some (inet_ntop6 net)
    /\ hostmin (info o) = Some (inet_ntop6 net)
    /\ hostmax (info o) = Some (inet_ntop6 hmax)
    /\ let a := be_value (s6_addr ip6) in
       let n := be_value (s6_addr net) in
       let h := be_value (s6_addr hmax) in
       be_value (s6_addr mask) = 2 ^ 128 - 2 ^ (128 - p)
       /\ n = a - a mod 2 ^ (128 - p)
       /\ h = n + 2 ^ (128 - p) - 1
       /\ n <= a <= h.
Proof.
  intros Hip Hwf Hp o. apply in6_wf_spec in Hwf as [Hlen Hbytes].
  destruct (get_ipv6_info_fields inet_pton6 inet_ntop6 gethostbyaddr
              ipStr p bs sh ip6 Hip Hlen (or_intror Hp))
    as (mask & _ & Hme & Hml & Hmb & _ & Hnm & Hnet & _ & Hmin & Hmax & _).
  destruct (Z.ltb_spec p 0) as [? | _]; [ lia | ].
  rewrite ipv6_mask_loop_top_bits in Hme by lia.
  set (net := {| s6_addr := zip_with Z.land (s6_addr ip6) (s6_addr mask) |})
    in *.
  assert (Hnl : length (s6_addr net) = 16%nat)
    by (cbn [net s6_addr]; rewrite length_zip_with; lia).
  assert (Hnb : Forall byte_range (s6_addr net))
    by (apply zip_land_bytes; exact Hmb).
  assert (Ha : 0 <= be_value (s6_addr ip6) < 2 ^ 128).
  { pose proof (be_value_range _ Hbytes) as R. rewrite Hlen in R. exact R. }
  assert (Hm : be_value (s6_addr mask) = 2 ^ 128 - 2 ^ (128 - p))
    by (rewrite Hme; apply mask6_value; lia).
  assert (Hn : be_value (s6_addr net)
               = be_value (s6_addr ip6)
                 - be_value (s6_addr ip6) mod 2 ^ (128 - p)).
  { cbn [net s6_addr]. rewrite be_value_land, Hm by (auto; lia).
    apply land_high_mask; lia. }
  assert (Hk : 0 < 2 ^ (128 - p)) by (apply Z.pow_pos_nonneg; lia).
  pose proof (Z.mod_pos_bound (be_value (s6_addr ip6)) (2 ^ (128 - p)) Hk).
  destruct (Z.ltb_spec p 128) as [Hlt | Hge].
  - exists mask, net.
    eexists {| s6_addr := _ |}.
    split; [ exact Hnm | ]. split; [ exact Hnet | ]. split; [ exact Hmin | ].
    split; [ exact Hmax | ]. cbv zeta. cbn [s6_addr].
    split; [ exact Hm | ]. split; [ exact Hn | ].
    assert (Hh : be_value (zip_with (fun x y => Z.lor x (255 - y))
                             (s6_addr net) (s6_addr mask))
                 = be_value (s6_addr net) + 2 ^ (128 - p) - 1).
    { rewrite <- zip_with_fmap_r with (g := fun y => 255 - y) (f := Z.lor).
      rewrite be_value_lor.
      - rewrite be_value_complement, Hm, Hml, Hn.
        replace (256 ^ Z.of_nat 16 - 1 - (2 ^ 128 - 2 ^ (128 - p)))
          with (2 ^ (128 - p) - 1)
          by (change (256 ^ Z.of_nat 16) with (2 ^ 128); lia).
        apply lor_low_ones. lia.
      - exact Hnb.
      - apply Forall_fmap. eapply Forall_impl; [ exact Hmb | ].
        unfold byte_range. simpl. intros; lia.
      - rewrite length_fmap. lia. }
    split; [ exact Hh | ]. rewrite Hh, Hn. lia.
  - assert (p = 128) by lia. subst p. exists mask, net, net.
    split; [ exact Hnm | ]. split; [ exact Hnet | ]. split; [ exact Hmin | ].
    split; [ exact Hmax | ]. cbv zeta.
    split; [ exact Hm | ]. split; [ exact Hn | ].
    change (2 ^ (128 - 128)) with 1 in *. lia.
Qed.

End Ipv6Range.

(** ** Prefix 0 *)

Section PrefixZero.
Variable host : byte_order.
Variable inet_pton4 : string -> option in_addr.
Variable inet_ntop4 : in_addr -> string.
Variable gethostbyaddr : sockaddr -> option string.

(** X27.  With prefix 0 [get_ipv4_info] reports the same network for
    every address: netmask and network 0.0.0.0, broadcast
    255.255.255.255, hosts 0.0.0.1 to 255.255.255.254, and the label of
    the network 0.0.0.0, whatever the label of the address would be. *)
Theorem ipv4_prefix_zero (ipStr : string) (bs sh : bool) (ip : in_addr) :
  inet_pton4 (cidr_pad (cidr_scan 3 ipStr) ipStr) = Some ip ->
  let o := get_ipv4_info host inet_pton4 inet_ntop4 gethostbyaddr
             ipStr 0 bs sh in
  netmask (info o) = Some (inet_ntop4 (dotted host 0 0 0 0))
  /\ network (info o) = Some (inet_ntop4 (dotted host 0 0 0 0))
  /\ broadcast (info o) = Some (inet_ntop4 (dotted host 255 255 255 255))
  /\ hostmin (info o) = Some (inet_ntop4 (dotted host 0 0 0 1))
  /\ hostmax (info o) = Some (inet_ntop4 (dotted host 255 255 255 254))
  /\ type (info o) = Some "This host on this network"%string.
Proof.
  intros Hip o.
  destruct (get_ipv4_info_fields host inet_pton4 inet_ntop4 gethostbyaddr
              ipStr 0 bs sh ip ltac:(lia) Hip)
    as (Hm & _ & Hn & Hb & Ht & Hmin & Hmax & _).
  fold o in Hm, Hn, Hb, Ht, Hmin, Hmax.
  assert (Em : prefix2mask host 0 = dotted host 0 0 0 0) by reflexivity.
  assert (En : calc_network host ip 0 = dotted host 0 0 0 0).
  { unfold calc_network. cbv zeta. rewrite Em. unfold dotted. cbn [s_addr].
    change (htonl host (quad 0 0 0 0)) with (htonl host 0).
    replace (htonl host 0) with 0 by (destruct host; reflexivity).
    rewrite Z.land_0_r. reflexivity. }
  assert (Eb : calc_broadcast host ip 0 = dotted host 255 255 255 255).
  { unfold calc_broadcast. cbv zeta. rewrite Em. unfold dotted. cbn [s_addr].
    change (htonl host (quad 0 0 0 0)) with (htonl host 0).
    replace (htonl host 0) with 0 by (destruct host; reflexivity).
    rewrite Z.land_0_r. destruct host; reflexivity. }
  rewrite Em in Hm. rewrite En in Hn, Ht, Hmin. rewrite Eb in Hb, Hmax.
  change (0 <=? 30) with true in Hmin, Hmax.
  split; [ exact Hm | ]. split; [ exact Hn | ]. split; [ exact Hb | ].
  split; [ rewrite Hmin; destruct host; reflexivity | ].
  split; [ rewrite Hmax; destruct host; reflexivity | ].
  rewrite Ht. destruct host; reflexivity.
Qed.

End PrefixZero.

(** ** The further properties at concrete inputs *)


Lemma ipv4_mask_to_int_range_witness :
  Libc.mask_to_int "255.255.240.0"%string = -1
  \/ 1 <= Libc.mask_to_int "255.255.240.0"%string <= 32.
Proof.
  refine (proj1 (ipv4_mask_to_int_range Libc.host Libc.inet_pton4
                   "255.255.240.0"%string _)).
  intros a E.
  change (Libc.inet_pton4 "255.255.240.0"%string)
    with (Some {| s_addr := htonl Libc.host 0xfffff000 |}) in E.
  pose proof (f_equal (fun r => match r with
                                | Some x => s_addr x
                                | None => 0
                                end) E) as Ea.
  cbv beta iota in Ea. cbn [s_addr] in Ea. rewrite <- Ea.
  vm_compute. split; [ discriminate | reflexivity ].
Defined.

Lemma accepted_mask_restored_iff_witness :
  bit_count 0x00ff0000 = 8
  /\ (ntohl LittleEndian
        (s_addr (prefix2mask LittleEndian (bit_count 0x00ff0000)))
      = 0x00ff0000 <-> 16 + 8 = 32).
Proof.
  exact (accepted_mask_restored_iff LittleEndian 16 8
           ltac:(lia) ltac:(lia) ltac:(lia)).
Defined.

Lemma address_within_network_witness :
  let ip := dotted LittleEndian 192 168 1 5 in
  ntohl LittleEndian (s_addr (calc_network LittleEndian ip 24))
  <= ntohl LittleEndian (s_addr ip)
  <= ntohl LittleEndian (s_addr (calc_broadcast LittleEndian ip 24)).
Proof.
  intros ip.
  exact (proj1 (proj2 (proj2
           (address_within_network LittleEndian ip 24 ltac:(lia)
              ltac:(vm_compute; split; [ discriminate | reflexivity ]))))).
Defined.

Lemma networks_nest_witness :
  let ip := dotted LittleEndian 192 168 1 5 in
  calc_network LittleEndian (calc_network LittleEndian ip 24) 8
  = calc_network LittleEndian ip 8.
Proof.
  intros ip.
  exact (networks_nest LittleEndian ip 8 24 ltac:(lia) ltac:(lia)).
Defined.

Lemma ipv4_info_diagnostics_witness :
  stderr (Libc.ipv4_info "10.0.0.1"%string 33 true false) = []
  /\ exists d, stderr (Libc.ipv4_info "10.0.0.1"%string 33 false false) = [d].
Proof.
  split.
  - destruct (ipv4_info_diagnostics Libc.host Libc.inet_pton4
                Libc.inet_ntop4 Libc.gethostbyaddr "10.0.0.1"%string 33
                true false)
      as (_ & _ & Hs & _).
    exact (Hs eq_refl).
  - destruct (ipv4_info_diagnostics Libc.host Libc.inet_pton4
                Libc.inet_ntop4 Libc.gethostbyaddr "10.0.0.1"%string 33
                false false)
      as (_ & _ & _ & Hd & _).
    exact (Hd eq_refl eq_refl).
Defined.

Lemma ipv6_info_diagnostics_witness :
  stderr (Libc.ipv6_info "2001:db8:0:0:0:0:0:1"%string 129 true false) = []
  /\ exists d,
       stderr (Libc.ipv6_info "2001:db8:0:0:0:0:0:1"%string 129 false false)
       = [d].
Proof.
  split.
  - destruct (ipv6_info_diagnostics Libc.inet_pton6 Libc.inet_ntop6
                Libc.gethostbyaddr "2001:db8:0:0:0:0:0:1"%string 129 true false)
      as (_ & _ & Hs & _).
    exact (Hs eq_refl).
  - destruct (ipv6_info_diagnostics Libc.inet_pton6 Libc.inet_ntop6
                Libc.gethostbyaddr "2001:db8:0:0:0:0:0:1"%string 129
                false false)
      as (_ & _ & _ & Hd & _).
    exact (Hd eq_refl eq_refl).
Defined.

Lemma ipv4_info_failure_leaves_zero_witness :
  info (Libc.ipv4_info "10.0.0.256"%string 8 false false) = info_zero.
Proof.
  destruct (ipv4_info_failure_leaves_zero Libc.host Libc.inet_pton4
              Libc.inet_ntop4 Libc.gethostbyaddr "10.0.0.256"%string 8
              false false
              eq_refl)
    as [H | (H & _)]; [ exact H | discriminate H ].
Defined.

Lemma ipv6_info_failure_fields_witness :
  info (Libc.ipv6_info "2001:db8:0:0:0:0:0:1"%string 0 false false)
  = set_expanded_ip (Some "2001:0db8:0000:0000:0000:0000:0000:0001"%string)
      info_zero.
Proof.
  destruct (ipv6_info_failure_fields Libc.inet_pton6 Libc.inet_ntop6
              Libc.gethostbyaddr "2001:db8:0:0:0:0:0:1"%string 0 false false
              eq_refl)
    as [(H & _) | [(ip6 & Hp & _ & H) | (H & _)]].
  - vm_compute in H. discriminate H.
  - etransitivity; [ exact H | ].
    change (Libc.inet_pton6 "2001:db8:0:0:0:0:0:1"%string)
      with (Some {| s6_addr := [0x20; 0x01; 0x0d; 0xb8; 0; 0; 0; 0;
                                0; 0; 0; 0; 0; 0; 0; 1] |}) in Hp.
    pose proof (f_equal (fun r => match r with
                                  | Some x => x
                                  | None => ip6
                                  end) Hp) as E.
    cbv beta iota in E. destruct E. reflexivity.
  - discriminate H.
Defined.

Lemma ipv4_info_success_complete_witness :
  let o := Libc.ipv4_info "192.168.1.5"%string 24 false false in
  prefix (info o) = 24 /\ is_Some (hostmax (info o)).
Proof.
  intros o.
  destruct (ipv4_info_success_complete Libc.host Libc.inet_pton4
              Libc.inet_ntop4 Libc.gethostbyaddr "192.168.1.5"%string 24
              false false
              eq_refl)
    as (_ & Hp & _ & _ & _ & _ & _ & Hx & _).
  split; [ exact (Hp ltac:(lia)) | exact Hx ].
Defined.

Lemma ipv6_info_success_complete_witness :
  let o := Libc.ipv6_info "2001:db8:0:0:0:0:0:1"%string 32 false false in
  prefix (info o) = 32 /\ is_Some (hostmax (info o)).
Proof.
  intros o.
  destruct (ipv6_info_success_complete Libc.inet_pton6 Libc.inet_ntop6
              Libc.gethostbyaddr "2001:db8:0:0:0:0:0:1"%string 32 false false
              eq_refl)
    as (_ & Hp & _ & _ & _ & _ & _ & _ & Hx & _).
  split; [ exact (Hp ltac:(lia)) | exact Hx ].
Defined.

Lemma cidr_padding_extends_witness :
  cidr_pad (cidr_scan 3 "1.2.3.4.5"%string) "1.2.3.4.5"%string
  = "1.2.3.4.5"%string.
Proof.
  exact (proj2 (proj2 (cidr_padding_extends "1.2.3.4.5"%string))
           ltac:(vm_compute; lia)).
Defined.


Lemma byte_192 : byte_range 192. Proof. unfold byte_range. lia. Defined.
Lemma byte_168 : byte_range 168. Proof. unfold byte_range. lia. Defined.
Lemma byte_255 : byte_range 255. Proof. unfold byte_range. lia. Defined.
Lemma byte_127 : byte_range 127. Proof. unfold byte_range. lia. Defined.
Lemma byte_2 : byte_range 2. Proof. unfold byte_range. lia. Defined.
Lemma byte_1 : byte_range 1. Proof. unfold byte_range. lia. Defined.
Lemma byte_0 : byte_range 0. Proof. unfold byte_range. lia. Defined.

Lemma private_use_addresses_witness :
  ipv4_net_to_type LittleEndian (dotted LittleEndian 192 168 1 0)
  = "Private Use"%string.
Proof.
  apply (private_use_addresses LittleEndian 192 168 1 0
           byte_192 byte_168 byte_1 byte_0).
  right. right. left. split; reflexivity.
Defined.

Lemma documentation_addresses_witness :
  ipv4_net_to_type BigEndian (dotted BigEndian 192 2 0 0)
  = "Documentation (TEST-NET-1)"%string.
Proof.
  apply (proj1 (documentation_addresses BigEndian 192 2 0 0
                  byte_192 byte_2 byte_0 byte_0)).
  split; [ | split ]; reflexivity.
Defined.

Lemma top_of_address_space_witness :
  ipv4_net_to_type LittleEndian (dotted LittleEndian 255 255 255 255)
  = "Limited Broadcast"%string.
Proof.
  apply (proj1 (proj2 (top_of_address_space LittleEndian 255 255 255 255
                         byte_255 byte_255 byte_255 byte_255))).
  split; [ | split; [ | split ] ]; reflexivity.
Defined.

Lemma special_blocks_witness :
  ipv4_net_to_type LittleEndian (dotted LittleEndian 127 0 0 1)
  = "Loopback"%string.
Proof.
  apply (proj1 (proj2 (special_blocks LittleEndian 127 0 0 1
                         byte_127 byte_0 byte_0 byte_1))).
  reflexivity.
Defined.

Lemma ipv6_labels_by_first_bytes_witness :
  ipv6_net_to_type
    {| s6_addr := [0xfe; 0x80; 0; 0; 0; 0; 0; 0; 0; 0; 0; 0; 0; 0; 0; 1] |}
  = "Link-Scoped Unicast"%string.
Proof.
  apply (proj1 (proj2 (proj2
           (ipv6_labels_by_first_bytes
              {| s6_addr := [0xfe; 0x80; 0; 0; 0; 0; 0; 0;
                             0; 0; 0; 0; 0; 0; 0; 1] |} eq_refl)))).
  split; [ reflexivity | ]. vm_compute. split; discriminate.
Defined.

Lemma ipv6_exact_block_labels_witness :
  ipv6_net_to_type
    {| s6_addr := [0; 0; 0; 0; 0; 0; 0; 0; 0; 0; 0xff; 0xff; 10; 0; 0; 1] |}
  = "IPv4-mapped Address"%string.
Proof.
  apply (proj1 (proj2 (proj2
           (ipv6_exact_block_labels
              {| s6_addr := [0; 0; 0; 0; 0; 0; 0; 0;
                             0; 0; 0xff; 0xff; 10; 0; 0; 1] |} eq_refl)))).
  reflexivity.
Defined.

Lemma expand_ipv6_format_witness :
  String.length
    (expand_ipv6
       {| s6_addr := [0x20; 0x01; 0x0d; 0xb8; 0; 0; 0; 0;
                      0; 0; 0; 0; 0; 0; 0; 1] |}) = 39%nat.
Proof.
  destruct (expand_ipv6_format
              {| s6_addr := [0x20; 0x01; 0x0d; 0xb8; 0; 0; 0; 0;
                             0; 0; 0; 0; 0; 0; 0; 1] |} eq_refl)
    as (groups & _ & _ & _ & H).
  exact H.
Defined.

Lemma expand_ipv6_injective_witness :
  {| s6_addr := replicate 16 0 |}
  = {| s6_addr := [0; 0; 0; 0; 0; 0; 0; 0; 0; 0; 0; 0; 0; 0; 0; 0] |}.
Proof.
  exact (expand_ipv6_injective {| s6_addr := replicate 16 0 |}
           {| s6_addr := [0; 0; 0; 0; 0; 0; 0; 0;
                          0; 0; 0; 0; 0; 0; 0; 0] |}
           eq_refl eq_refl eq_refl).
Defined.

Lemma ipv6_range_arithmetic_witness :
  exists mask net hmax : in6_addr,
    hostmax (info (Libc.ipv6_info "2001:db8:0:0:0:0:0:1"%string 32
                     false false))
    = Some (Libc.inet_ntop6 hmax)
    /\ be_value (s6_addr mask) = 2 ^ 128 - 2 ^ 96
    /\ be_value (s6_addr hmax) = be_value (s6_addr net) + 2 ^ 96 - 1.
Proof.
  destruct (ipv6_range_arithmetic Libc.inet_pton6 Libc.inet_ntop6
              Libc.gethostbyaddr "2001:db8:0:0:0:0:0:1"%string 32 false false
              {| s6_addr := [0x20; 0x01; 0x0d; 0xb8; 0; 0; 0; 0;
                             0; 0; 0; 0; 0; 0; 0; 1] |}
              eq_refl eq_refl ltac:(lia))
    as (mask & net & hmax & _ & _ & _ & Hmax & Hm & _ & Hh & _).
  exists mask, net, hmax.
  split; [ exact Hmax | ]. split; [ exact Hm | exact Hh ].
Defined.

Lemma ipv4_prefix_zero_witness :
  let o := Libc.ipv4_info "10.1.2.3"%string 0 false false in
  network (info o) = Some "0.0.0.0"%string
  /\ hostmax (info o) = Some "255.255.255.254"%string
  /\ type (info o) = Some "This host on this network"%string.
Proof.
  intros o.
  destruct (ipv4_prefix_zero Libc.host Libc.inet_pton4 Libc.inet_ntop4
              Libc.gethostbyaddr "10.1.2.3"%string false false
              (dotted Libc.host 10 1 2 3) eq_refl)
    as (_ & Hn & _ & _ & Hx & Ht).
  split; [ etransitivity; [ exact Hn | reflexivity ] | ].
  split; [ etransitivity; [ exact Hx | reflexivity ] | exact Ht ].
Defined.
